(** * MapIO: the [Cloud] container of [mapio/cloud.py]

    A shallow embedding of the class [Cloud] and of the part of NumPy its
    methods go through, followed by the properties of the class.

    - A NumPy array is its shape together with its elements in row-major
      order ([ndarray]); element types are left abstract: any type with a
      decidable strict total order ([Scalar]), instantiated at [Z] for the
      concrete runs.  IEEE special values (NaN) are outside this model.
    - A Python exception is a value of [exn]; a computation that may raise
      returns a [result].
    - A [Cloud] object is its instance dictionary, a finite map from
      attribute names to arrays; a method is a function from the object
      before the call to the object after it and the outcome of the call
      ([method]).  Reading an attribute the dictionary lacks raises
      [AttributeError], as in Python.
    - The base class [DataSet] and the exception class [DataSetException]
      live in [mapio/dataset.py]; [DataSet] is an abstract interface that
      brings no data attribute, and [Cloud.__init__] does not call a base
      initialiser, so the instance dictionary holds exactly what the methods
      of [Cloud] assign.
    - [geodetic.distance] belongs to an external library and stays a
      parameter of the development. *)

From stdpp Require Import gmap strings list fin_maps.
From Stdlib Require Import ZArith Lia.

Open Scope string_scope.
Open Scope list_scope.

(** ** Exceptions and results *)

Inductive exn : Type :=
  | DataSetException (msg : string)
  | NotImplementedError (msg : string)
  | AttributeError (attr : string)
  | IndexError
  | ValueError.

Inductive result (A : Type) : Type :=
  | Ok (a : A)
  | Raise (e : exn).
Arguments Ok {A} a.
Arguments Raise {A} e.

#[export] Instance result_ret : MRet result := λ A a, Ok a.
#[export] Instance result_bind : MBind result := λ A B k r,
  match r with
  | Ok a => k a
  | Raise e => Raise e
  end.

(** ** Element types *)

(** The comparison [<] of an array's element type. *)
Class Scalar (T : Type) : Type := {
  sc_lt : T → T → bool;
  sc_lt_irrefl : ∀ x, sc_lt x x = false;
  sc_lt_trans : ∀ x y z, sc_lt x y = true → sc_lt y z = true → sc_lt x z = true;
  sc_lt_total : ∀ x y, sc_lt x y = false → sc_lt y x = false → x = y
}.

#[export] Program Instance Z_Scalar : Scalar Z := {| sc_lt := Z.ltb |}.
Next Obligation. intros x. apply Z.ltb_irrefl. Qed.
Next Obligation. intros x y z. rewrite !Z.ltb_lt. lia. Qed.
Next Obligation. intros x y. rewrite !Z.ltb_ge. lia. Qed.

(** ** NumPy arrays *)

(** [shape] is [a.shape]; [flat] lists the elements as [a.flat] does. *)
Record ndarray (A : Type) : Type := NDArray {
  shape : list nat;
  flat : list A
}.
Arguments NDArray {A} shape flat.
Arguments shape {A} _.
Arguments flat {A} _.

(** Number of elements of an array of shape [s]. *)
Definition size (s : list nat) : nat := foldr Nat.mul 1 s.

(** An array holds as many elements as its shape says. *)
Definition wf {A} (a : ndarray A) : Prop := length (flat a) = size (shape a).

(** A one-dimensional array. *)
Definition array1 {A} (xs : list A) : ndarray A := NDArray [length xs] xs.

(** [a > x], [a < x] and the like, of an array and a scalar: elementwise. *)
Definition nd_map {A B} (f : A → B) (a : ndarray A) : ndarray B :=
  NDArray (shape a) (f <$> flat a).

(** [n] consecutive blocks of [k] elements each. *)
Fixpoint chunks {A} (k n : nat) (xs : list A) : list (list A) :=
  match n with
  | 0 => []
  | S n' => take k xs :: chunks k n' (drop k xs)
  end.

(** One axis of NumPy's broadcasting rule. *)
Definition broadcast_dim (d1 d2 : nat) : option nat :=
  if decide (d1 = d2) then Some d1
  else if decide (d1 = 1) then Some d2
  else if decide (d2 = 1) then Some d1
  else None.

(** Shapes are matched from the last axis; a missing axis counts as [1]. *)
Fixpoint broadcast_rev (r1 r2 : list nat) : option (list nat) :=
  match r1, r2 with
  | [], r | r, [] => Some r
  | d1 :: r1', d2 :: r2' =>
      d ← broadcast_dim d1 d2; r ← broadcast_rev r1' r2'; Some (d :: r)
  end.

Definition broadcast_shapes (s1 s2 : list nat) : option (list nat) :=
  reverse <$> broadcast_rev (reverse s1) (reverse s2).

(** The elements of an array of shape [sa] seen at shape [s] (of the same
    rank): an axis of length [1] is repeated. *)
Fixpoint stretch {A} (sa s : list nat) (xs : list A) : list A :=
  match sa, s with
  | da :: sa', d :: s' =>
      if decide (da = d)
      then mjoin (stretch sa' s' <$> chunks (size sa') da xs)
      else mjoin (replicate d (stretch sa' s' xs))
  | _, _ => xs
  end.

Definition broadcast_to {A} (a : ndarray A) (s : list nat) : list A :=
  stretch (replicate (length s - length (shape a)) 1 ++ shape a) s (flat a).

(** [a & b] on boolean arrays. *)
Definition nd_and (a b : ndarray bool) : result (ndarray bool) :=
  match broadcast_shapes (shape a) (shape b) with
  | Some s => Ok (NDArray s (zip_with andb (broadcast_to a s) (broadcast_to b s)))
  | None => Raise ValueError
  end.

(** The blocks whose flag is set, concatenated. *)
Fixpoint select {A} (flags : list bool) (blocks : list (list A)) : list A :=
  match flags, blocks with
  | f :: flags', b :: blocks' =>
      if f then b ++ select flags' blocks' else select flags' blocks'
  | _, _ => []
  end.

(** The entries of [xs] whose flag is set. *)
Fixpoint compress {A} (flags : list bool) (xs : list A) : list A :=
  match flags, xs with
  | f :: flags', x :: xs' => if f then x :: compress flags' xs' else compress flags' xs'
  | _, _ => []
  end.

Definition count_true (flags : list bool) : nat := length (filter Is_true flags).

(** [a[mask]] for a boolean array [mask]: the mask covers the leading axes
    of [a], which it must match; the selected entries are laid out along
    one new leading axis. *)
Definition getitem_mask {A} (a : ndarray A) (mask : ndarray bool) : result (ndarray A) :=
  let rest := drop (length (shape mask)) (shape a) in
  if decide (take (length (shape mask)) (shape a) = shape mask)
  then Ok (NDArray (count_true (flat mask) :: rest)
             (select (flat mask) (chunks (size rest) (size (shape mask)) (flat a))))
  else Raise IndexError.

(** [a[i]] for an integer [i ≥ 0]: the [i]-th entry along the first axis. *)
Definition getitem_int {A} (a : ndarray A) (i : nat) : result (ndarray A + A) :=
  match shape a with
  | [] => Raise IndexError
  | d :: rest =>
      if decide (i < d) then
        match rest, flat a !! i with
        | [], Some x => Ok (inr x)
        | _, _ => Ok (inl (NDArray rest (take (size rest) (drop (i * size rest) (flat a)))))
        end
      else Raise IndexError
  end.

Section Reductions.
Context {T : Type} `{Scalar T}.

(** [np.minimum] and [np.maximum] on two elements, the steps of the
    reductions below. *)
Definition minimum (x y : T) : T := if sc_lt x y then x else y.
Definition maximum (x y : T) : T := if sc_lt y x then x else y.

(** [a.min()] and [a.max()]: over all elements; an empty array has none. *)
Definition nd_min (a : ndarray T) : result T :=
  match flat a with
  | [] => Raise ValueError
  | x :: xs => Ok (foldl minimum x xs)
  end.

Definition nd_max (a : ndarray T) : result T :=
  match flat a with
  | [] => Raise ValueError
  | x :: xs => Ok (foldl maximum x xs)
  end.

(** [a.argmin()]: the index, in [a.flat], of the first smallest element.
    [argmin_go i best m xs] scans [xs], whose head has index [i], knowing
    the smallest element so far, [m], and its index [best]. *)
Fixpoint argmin_go (i best : nat) (m : T) (xs : list T) : nat :=
  match xs with
  | [] => best
  | y :: ys => if sc_lt y m then argmin_go (S i) i y ys else argmin_go (S i) best m ys
  end.

Definition nd_argmin (a : ndarray T) : result nat :=
  match flat a with
  | [] => Raise ValueError
  | x :: xs => Ok (argmin_go 1 0 x xs)
  end.

End Reductions.

(** ** Python values and objects *)

(** The instance dictionary of an object whose attributes are arrays. *)
Abbreviation obj T := (gmap string (ndarray T)).

Section Cloud.
Context {T : Type} `{Scalar T}.

(** What a caller may pass where an array is expected: an array, or a
    value that is none (a number, a string, a list of numbers, [None]). *)
Inductive pyobj : Type :=
  | PyArray (a : ndarray T)
  | PyNum (x : T)
  | PyStr (s : string)
  | PyList (xs : list T)
  | PyNone.

(** [o.shape], read through the array that carries it: of the values above
    only an array has the attribute. *)
Definition with_shape (o : pyobj) : result (ndarray T) :=
  match o with
  | PyArray a => Ok a
  | _ => Raise (AttributeError "shape")
  end.

(** [seq[i]] on a tuple or list. *)
Definition item (seq : list T) (i : nat) : result T :=
  match seq !! i with
  | Some x => Ok x
  | None => Raise IndexError
  end.

(** A method body: from the object before to the object after and the
    outcome. An exception leaves the assignments made before it in place. *)
Definition method (A : Type) : Type := obj T → obj T * result A.

#[export] Instance method_ret : MRet method := λ A a self, (self, Ok a).
#[export] Instance method_bind : MBind method := λ A B k m self,
  match m self with
  | (self', Ok a) => k a self'
  | (self', Raise e) => (self', Raise e)
  end.

Definition raise {A} (e : exn) : method A := λ self, (self, Raise e).
Definition lift {A} (r : result A) : method A := λ self, (self, r).

(** [self.name] *)
Definition getattr (name : string) : method (ndarray T) := λ self,
  match self !! name with
  | Some a => (self, Ok a)
  | None => (self, Raise (AttributeError name))
  end.

(** [self.name = a] *)
Definition setattr (name : string) (a : ndarray T) : method () := λ self,
  (<[name := a]> self, Ok ()).

(** ** The class [Cloud] *)

Definition Cloud_init (lon lat data : pyobj) : method () :=
  a ← lift (with_shape lon);
  b ← lift (with_shape lat);
  if decide (shape a ≠ shape b)
  then raise (DataSetException "Input lat/lon/data arrays must have same shape.")
  else
    d ← lift (with_shape data);
    if decide (shape a ≠ shape d ∨ shape b ≠ shape d)
    then raise (DataSetException "Input lat/lon/data arrays must have same shape.")
    else
      setattr "_lon" a;;
      setattr "_lat" b;;
      setattr "_data" d.

(** [Cloud(lon, lat, data)]: a fresh object, initialised; no object comes
    out of a constructor that raises. *)
Definition Cloud (lon lat data : pyobj) : result (obj T) :=
  match Cloud_init lon lat data ∅ with
  | (self, Ok _) => Ok self
  | (_, Raise e) => Raise e
  end.

Definition getData : method (ndarray T) := getattr "_data".

Definition setData (data : pyobj) : method () :=
  d ← lift (with_shape data);
  lon ← getattr "_lon";
  if decide (shape d ≠ shape lon)
  then raise (DataSetException "Cloud.setData() input data must match dimensions of lat/lon")
  else setattr "_data" d.

Definition getBounds : method (T * T * T * T) :=
  lon ← getattr "_lon"; x0 ← lift (nd_min lon);
  lon ← getattr "_lon"; x1 ← lift (nd_max lon);
  lat ← getattr "_lat"; y0 ← lift (nd_min lat);
  lat ← getattr "_lat"; y1 ← lift (nd_max lat);
  mret (x0, x1, y0, y1).

Definition trim (bounds : list T) : method () :=
  lon ← getattr "_lon"; b0 ← lift (item bounds 0);
  let m0 := nd_map (λ x, sc_lt b0 x) lon in
  lon ← getattr "_lon"; b1 ← lift (item bounds 1);
  let m1 := nd_map (λ x, sc_lt x b1) lon in
  m01 ← lift (nd_and m0 m1);
  lat ← getattr "_lat"; b2 ← lift (item bounds 2);
  let m2 := nd_map (λ y, sc_lt b2 y) lat in
  m012 ← lift (nd_and m01 m2);
  lat ← getattr "_lat"; b3 ← lift (item bounds 3);
  let m3 := nd_map (λ y, sc_lt y b3) lat in
  inside ← lift (nd_and m012 m3);
  lon ← getattr "_lon"; lon' ← lift (getitem_mask lon inside); setattr "_lon" lon';;
  lat ← getattr "_lat"; lat' ← lift (getitem_mask lat inside); setattr "_lat" lat';;
  data ← getattr "_data"; data' ← lift (getitem_mask data inside); setattr "_data" data'.

(** [geodetic.distance(lons1, lats1, lons2, lats2)] of the external
    library: the distances from a point to the points of two coordinate
    arrays. *)
Variable geodetic_distance : T → T → ndarray T → ndarray T → result (ndarray T).

Definition getValue (lat lon : T) (method_ : string) : method (ndarray T + T) :=
  if decide (method_ = "nearest") then
    lons ← getattr "_lons";
    lats ← getattr "_lats";
    d ← lift (geodetic_distance lon lat lons lats);
    imin ← lift (nd_argmin d);
    data ← getattr "_data";
    lift (getitem_int data imin)
  else raise (NotImplementedError "Only nearest neighbor method implemented at this time.").

(** The class [GeoDict] of [mapio/geodict.py]. *)
Variable GeoDict : Type.

Definition interpolateToGrid (geodict : GeoDict) (method_ : string) : method () :=
  raise (NotImplementedError "interpolateToGrid not implemented yet for the Cloud class.").

(** ** Calls and runs *)

(** A call of a public method of a [Cloud], with its arguments. *)
Inductive call : Type :=
  | CallGetData
  | CallSetData (data : pyobj)
  | CallGetBounds
  | CallTrim (bounds : list T)
  | CallGetValue (lat lon : T) (method_ : string)
  | CallInterpolateToGrid (geodict : GeoDict) (method_ : string).

(** The object after a call, whether the call returned or raised. *)
Definition exec (c : call) (self : obj T) : obj T :=
  match c with
  | CallGetData => (getData self).1
  | CallSetData data => (setData data self).1
  | CallGetBounds => (getBounds self).1
  | CallTrim bounds => (trim bounds self).1
  | CallGetValue lat lon m => (getValue lat lon m self).1
  | CallInterpolateToGrid g m => (interpolateToGrid g m self).1
  end.

Definition run (cs : list call) (self : obj T) : obj T := foldl (flip exec) self cs.

(** The exception a result carries, if any. *)
Definition result_exn {A} (r : result A) : option exn :=
  match r with
  | Ok _ => None
  | Raise e => Some e
  end.

(** The exception a call ends in, [None] when it returns. *)
Definition raised (c : call) (self : obj T) : option exn :=
  match c with
  | CallGetData => result_exn (getData self).2
  | CallSetData data => result_exn (setData data self).2
  | CallGetBounds => result_exn (getBounds self).2
  | CallTrim bounds => result_exn (trim bounds self).2
  | CallGetValue lat lon m => result_exn (getValue lat lon m self).2
  | CallInterpolateToGrid g m => result_exn (interpolateToGrid g m self).2
  end.

(** ** Clouds *)

(** The instance dictionary [Cloud.__init__] builds from three arrays. *)
Definition instance (lon lat data : ndarray T) : obj T :=
  <["_data" := data]> (<["_lat" := lat]> (<["_lon" := lon]> ∅)).

(** The arrays of an object share one shape. *)
Definition same_shape (self : obj T) : Prop :=
  ∃ lon lat data, self = instance lon lat data ∧
    shape lon = shape lat ∧ shape lon = shape data ∧ shape lat = shape data.

(** A cloud: three arrays of one shape, each with the elements its shape
    announces. *)
Definition is_cloud (self : obj T) (lon lat data : ndarray T) : Prop :=
  self = instance lon lat data ∧
  shape lon = shape lat ∧ shape lat = shape data ∧
  wf lon ∧ wf lat ∧ wf data.

(** Arguments a caller can build: an array argument holds as many
    elements as its shape says. *)
Definition valid_obj (o : pyobj) : Prop :=
  match o with
  | PyArray a => wf a
  | _ => True
  end.

Definition valid_call (c : call) : Prop :=
  match c with
  | CallSetData data => valid_obj data
  | _ => True
  end.

(** The points of a cloud, in the order of the arrays. *)
Definition points (lon lat data : ndarray T) : list (T * T * T) :=
  zip (zip (flat lon) (flat lat)) (flat data).

(** The test [trim] applies to a point, for the box
    [(xmin, xmax, ymin, ymax)]. *)
Definition inside (xmin xmax ymin ymax : T) (p : T * T * T) : bool :=
  sc_lt xmin p.1.1 && sc_lt p.1.1 xmax && sc_lt ymin p.1.2 && sc_lt p.1.2 ymax.

(** A point strictly outside the box: beyond one of its four sides. *)
Definition outside (xmin xmax ymin ymax : T) (p : T * T * T) : Prop :=
  sc_lt p.1.1 xmin = true ∨ sc_lt xmax p.1.1 = true ∨
  sc_lt p.1.2 ymin = true ∨ sc_lt ymax p.1.2 = true.

(** A point on the boundary of the box: on the line of one of its sides. *)
Definition on_boundary (xmin xmax ymin ymax : T) (p : T * T * T) : Prop :=
  p.1.1 = xmin ∨ p.1.1 = xmax ∨ p.1.2 = ymin ∨ p.1.2 = ymax.

(** The same test along the coordinate arrays. *)
Definition box_mask (xmin xmax ymin ymax : T) (lon lat : ndarray T) : list bool :=
  zip_with (λ x y, sc_lt xmin x && sc_lt x xmax && sc_lt ymin y && sc_lt y ymax)
    (flat lon) (flat lat).

(** The array [a[mask]] when [mask] has the shape of [a]. *)
Definition masked {A} (flags : list bool) (a : ndarray A) : ndarray A :=
  NDArray [count_true flags] (compress flags (flat a)).

(** [x] is a smallest, resp. largest, element of [xs]. *)
Definition is_min (x : T) (xs : list T) : Prop := x ∈ xs ∧ ∀ y, y ∈ xs → sc_lt y x = false.
Definition is_max (x : T) (xs : list T) : Prop := x ∈ xs ∧ ∀ y, y ∈ xs → sc_lt x y = false.

End Cloud.

Arguments pyobj T : clear implicits.
Arguments call T GeoDict : clear implicits.
Arguments CallGetData {T GeoDict}.
Arguments CallSetData {T GeoDict} data.
Arguments CallGetBounds {T GeoDict}.
Arguments CallTrim {T GeoDict} bounds.
Arguments CallGetValue {T GeoDict} lat lon method_.
Arguments CallInterpolateToGrid {T GeoDict} geodict method_.
Arguments interpolateToGrid {T GeoDict} geodict method_ self.
Arguments exec {T H} geodetic_distance {GeoDict} c self.
Arguments run {T H} geodetic_distance {GeoDict} cs self.
Arguments valid_call {T GeoDict} c.
Arguments raised {T H} geodetic_distance {GeoDict} c self.

(** ** A sample cloud

    Four points with integer coordinates and values, used to run the
    methods on concrete data. *)

Module Sample.

Definition lon : ndarray Z := array1 [1; 5; 3; 7]%Z.
Definition lat : ndarray Z := array1 [10; 20; 30; 40]%Z.
Definition data : ndarray Z := array1 [100; 200; 300; 400]%Z.
Definition cloud : obj Z := instance lon lat data.

(** A longer value array, which [setData] must turn down. *)
Definition data5 : ndarray Z := array1 [1; 2; 3; 4; 5]%Z.

(** The same four points laid out as two rows of two. *)
Definition lon2 : ndarray Z := NDArray [2; 2] [1; 5; 3; 7]%Z.
Definition lat2 : ndarray Z := NDArray [2; 2] [10; 20; 30; 40]%Z.
Definition data2 : ndarray Z := NDArray [2; 2] [100; 200; 300; 400]%Z.
Definition cloud2 : obj Z := instance lon2 lat2 data2.

(** A cloud without points. *)
Definition none : ndarray Z := array1 [].
Definition empty : obj Z := instance none none none.

(** A stand-in for [geodetic.distance] on integer coordinates. *)
Definition distance (x y : Z) (xs ys : ndarray Z) : result (ndarray Z) :=
  Ok (NDArray (shape xs)
        (zip_with (λ x' y', Z.abs (x' - x) + Z.abs (y' - y))%Z (flat xs) (flat ys))).

(** The sample cloud with its coordinates stored a second time, under the
    names [getValue] reads. *)
Definition named : obj Z := <["_lats" := lat]> (<["_lons" := lon]> cloud).

End Sample.

(** * Properties *)

(** ** NumPy arrays *)

Section ArrayFacts.
Context {A : Type}.
Implicit Types (xs : list A) (flags : list bool) (s : list nat).

Lemma broadcast_dim_same d : broadcast_dim d d = Some d.
Proof. unfold broadcast_dim. by rewrite decide_True. Qed.

Lemma broadcast_rev_same r : broadcast_rev r r = Some r.
Proof.
  induction r as [|d r IH]; [done|].
  simpl. rewrite broadcast_dim_same. simpl. by rewrite IH.
Qed.

Lemma broadcast_shapes_same s : broadcast_shapes s s = Some s.
Proof.
  unfold broadcast_shapes. rewrite broadcast_rev_same. simpl.
  by rewrite reverse_involutive.
Qed.

Lemma chunks_join (f : list A → list A) k n xs :
  (∀ ys, length ys = k → f ys = ys) →
  length xs = n * k →
  mjoin (f <$> chunks k n xs) = xs.
Proof.
  intros Hf. revert xs. induction n as [|n IH]; intros xs Hlen.
  - by destruct xs.
  - simpl. rewrite Hf by (rewrite length_take; lia).
    rewrite IH by (rewrite length_drop; lia).
    apply take_drop.
Qed.

Lemma stretch_same s xs : length xs = size s → stretch s s xs = xs.
Proof.
  revert xs. induction s as [|d s IH]; intros xs Hlen; [done|].
  simpl. rewrite decide_True by done.
  apply chunks_join; [apply IH | done].
Qed.

Lemma broadcast_to_same (a : ndarray A) s :
  shape a = s → wf a → broadcast_to a s = flat a.
Proof.
  intros <- Hwf. unfold broadcast_to. rewrite Nat.sub_diag. simpl.
  by apply stretch_same.
Qed.

Lemma select_singletons flags xs :
  select flags (chunks 1 (length xs) xs) = compress flags xs.
Proof.
  revert flags. induction xs as [|x xs IH]; intros [|f flags]; try done.
  simpl. rewrite drop_0, IH. by destruct f.
Qed.

Lemma compress_length flags xs :
  length flags = length xs → length (compress flags xs) = count_true flags.
Proof.
  unfold count_true. revert xs.
  induction flags as [|f flags IH]; intros [|x xs] Hlen; try done.
  simpl in *. destruct f.
  - rewrite filter_cons_True by done. simpl. f_equal. apply IH. lia.
  - rewrite filter_cons_False by (by intros []). apply IH. lia.
Qed.

Lemma compress_fmap (f : A → bool) xs : compress (f <$> xs) xs = filter f xs.
Proof.
  induction xs as [|x xs IH]; [done|].
  rewrite fmap_cons. cbn [compress]. rewrite IH.
  destruct (f x) eqn:Hx.
  - rewrite filter_cons_True; [done | by apply Is_true_true].
  - rewrite filter_cons_False; [done | by apply Is_true_false].
Qed.

Lemma compress_nil flags : compress flags (@nil A) = [].
Proof. by destruct flags. Qed.

Lemma compress_zip {B} flags xs (ys : list B) :
  length xs = length ys →
  compress flags (zip xs ys) = zip (compress flags xs) (compress flags ys).
Proof.
  revert xs ys.
  induction flags as [|f flags IH]; intros [|x xs] [|y ys] Hlen; try done.
  simpl in *. destruct f; simpl; rewrite IH by lia; done.
Qed.

Lemma compress_sublist flags xs : compress flags xs `sublist_of` xs.
Proof.
  revert xs. induction flags as [|f flags IH]; intros [|x xs]; simpl;
    try apply sublist_nil_l.
  destruct f; [by apply sublist_skip | by apply sublist_cons].
Qed.

Lemma getitem_mask_same (a : ndarray A) (mask : ndarray bool) :
  shape mask = shape a → wf a →
  getitem_mask a mask =
    Ok (NDArray [count_true (flat mask)] (compress (flat mask) (flat a))).
Proof.
  intros Hs Hwf. unfold getitem_mask. cbv zeta. rewrite Hs.
  rewrite decide_True by (by rewrite take_ge).
  rewrite drop_ge by done. simpl. rewrite <- Hwf.
  by rewrite select_singletons.
Qed.

(** The shape of [a[mask]], whatever the elements are. *)
Lemma getitem_mask_shape (a : ndarray A) (mask : ndarray bool) :
  shape mask = shape a →
  ∃ xs, getitem_mask a mask = Ok (NDArray [count_true (flat mask)] xs).
Proof.
  intros Hs. unfold getitem_mask. cbv zeta. rewrite Hs.
  rewrite decide_True by (by rewrite take_ge).
  rewrite drop_ge by done. eauto.
Qed.

End ArrayFacts.

Example broadcast_column_row :
  nd_and (NDArray [2; 1] [true; false]) (NDArray [3] [true; false; true]) =
    Ok (NDArray [2; 3] [true; false; true; false; false; false]).
Proof. reflexivity. Qed.

Example broadcast_mismatch :
  nd_and (NDArray [2; 2] [true; false; true; true]) (NDArray [3] [true; false; true]) =
    Raise ValueError.
Proof. reflexivity. Qed.

Example mask_matrix :
  getitem_mask (NDArray [2; 2] [1; 2; 3; 4]) (NDArray [2; 2] [false; true; true; false]) =
    Ok (NDArray [2] [2; 3]).
Proof. reflexivity. Qed.

Example mask_rows :
  getitem_mask (NDArray [2; 2] [1; 2; 3; 4]) (NDArray [2] [false; true]) =
    Ok (NDArray [1; 2] [3; 4]).
Proof. reflexivity. Qed.

Example mask_too_long :
  getitem_mask (NDArray [2; 2] [1; 2; 3; 4]) (NDArray [3] [true; true; false]) =
    Raise IndexError.
Proof. reflexivity. Qed.

(** ** Reductions *)

Section ReductionFacts.
Context {T : Type} `{Scalar T}.
Implicit Types (x y m : T) (xs : list T).

Lemma sc_lt_asym x y : sc_lt x y = true → sc_lt y x = false.
Proof.
  intros Hxy. destruct (sc_lt y x) eqn:Hyx; [|done].
  by rewrite <- (sc_lt_irrefl x), (sc_lt_trans x y x).
Qed.

(** [sc_lt _ x = false] goes up along [<]. *)
Lemma sc_not_lt_trans x y z : sc_lt y x = false → sc_lt z y = false → sc_lt z x = false.
Proof.
  intros Hyx Hzy. destruct (sc_lt z x) eqn:Hzx; [|done].
  destruct (sc_lt x y) eqn:Hxy.
  - by rewrite (sc_lt_trans z x y) in Hzy.
  - by rewrite (sc_lt_total x y), Hzy in Hzx.
Qed.

Lemma foldl_minimum_is_min x xs : is_min (foldl minimum x xs) (x :: xs).
Proof.
  assert (∀ ys m, is_min m ys → ∀ zs, is_min (foldl minimum m zs) (ys ++ zs)) as Hgo.
  { intros ys m Hm zs. revert ys m Hm.
    induction zs as [|z zs IH]; intros ys m [Hin Hle]; simpl.
    - rewrite app_nil_r. by split.
    - rewrite (assoc_L _ ys [z] zs : ys ++ z :: zs = (ys ++ [z]) ++ zs).
      apply IH. unfold minimum. destruct (sc_lt m z) eqn:Hmz; split.
      + set_solver.
      + intros y [Hy| ->%list_elem_of_singleton]%elem_of_app;
          [by apply Hle | by apply sc_lt_asym].
      + set_solver.
      + intros y [Hy| ->%list_elem_of_singleton]%elem_of_app.
        * apply sc_not_lt_trans with m; [done | by apply Hle].
        * apply sc_lt_irrefl. }
  apply (Hgo [x] x); split; [set_solver|].
  intros y ->%list_elem_of_singleton. apply sc_lt_irrefl.
Qed.

Lemma foldl_maximum_is_max x xs : is_max (foldl maximum x xs) (x :: xs).
Proof.
  assert (∀ ys m, is_max m ys → ∀ zs, is_max (foldl maximum m zs) (ys ++ zs)) as Hgo.
  { intros ys m Hm zs. revert ys m Hm.
    induction zs as [|z zs IH]; intros ys m [Hin Hle]; simpl.
    - rewrite app_nil_r. by split.
    - rewrite (assoc_L _ ys [z] zs : ys ++ z :: zs = (ys ++ [z]) ++ zs).
      apply IH. unfold maximum. destruct (sc_lt z m) eqn:Hzm; split.
      + set_solver.
      + intros y [Hy| ->%list_elem_of_singleton]%elem_of_app;
          [by apply Hle | by apply sc_lt_asym].
      + set_solver.
      + intros y [Hy| ->%list_elem_of_singleton]%elem_of_app.
        * apply sc_not_lt_trans with m; [by apply Hle | done].
        * apply sc_lt_irrefl. }
  apply (Hgo [x] x); split; [set_solver|].
  intros y ->%list_elem_of_singleton. apply sc_lt_irrefl.
Qed.

Lemma nd_min_is_min (a : ndarray T) :
  flat a ≠ [] → ∃ m, nd_min a = Ok m ∧ is_min m (flat a).
Proof.
  unfold nd_min. destruct (flat a) as [|x xs]; [done|]. intros _.
  eexists; split; [done|]. apply foldl_minimum_is_min.
Qed.

Lemma nd_max_is_max (a : ndarray T) :
  flat a ≠ [] → ∃ m, nd_max a = Ok m ∧ is_max m (flat a).
Proof.
  unfold nd_max. destruct (flat a) as [|x xs]; [done|]. intros _.
  eexists; split; [done|]. apply foldl_maximum_is_max.
Qed.

(** [<] against a bound that is not above. *)
Lemma sc_lt_le_trans x y z : sc_lt x y = true → sc_lt z y = false → sc_lt x z = true.
Proof.
  intros Hxy Hzy. destruct (sc_lt x z) eqn:Hxz; [done|].
  destruct (sc_lt z x) eqn:Hzx.
  - by rewrite (sc_lt_trans z x y) in Hzy.
  - by rewrite (sc_lt_total x z), Hzy in Hxy.
Qed.



End ReductionFacts.

(** ** Objects and method bodies *)

Section CloudFacts.
Context {T : Type} `{Scalar T}.
Implicit Types (self : obj T) (lon lat data : ndarray T) (o : pyobj T).

Lemma bind_getattr {A} name (k : ndarray T → method A) self a :
  self !! name = Some a → (getattr name ≫= k) self = k a self.
Proof. intros Ha. unfold mbind, method_bind, getattr. by rewrite Ha. Qed.

Lemma bind_getattr_missing {A} name (k : ndarray T → method A) self :
  self !! name = None → (getattr name ≫= k) self = (self, Raise (AttributeError name)).
Proof. intros Ha. unfold mbind, method_bind, getattr. by rewrite Ha. Qed.

Lemma bind_lift_Ok {A B} (a : A) (k : A → method B) self :
  (lift (Ok a) ≫= k) self = k a self.
Proof. done. Qed.

Lemma bind_lift_Raise {A B} e (k : A → method B) self :
  (lift (Raise e) ≫= k) self = (self, Raise e).
Proof. done. Qed.

Lemma bind_setattr {A} name a (k : () → method A) self :
  (setattr name a ≫= k) self = k () (<[name := a]> self).
Proof. done. Qed.

Lemma instance_lon lon lat data : instance lon lat data !! "_lon" = Some lon.
Proof. unfold instance. by simplify_map_eq. Qed.

Lemma instance_lat lon lat data : instance lon lat data !! "_lat" = Some lat.
Proof. unfold instance. by simplify_map_eq. Qed.

Lemma instance_data lon lat data : instance lon lat data !! "_data" = Some data.
Proof. unfold instance. by simplify_map_eq. Qed.

(** An instance has the three attributes and no other. *)
Lemma instance_other lon lat data name :
  name ≠ "_lon" → name ≠ "_lat" → name ≠ "_data" →
  instance lon lat data !! name = None.
Proof. intros. unfold instance. by simplify_map_eq. Qed.

Lemma instance_set_lon lon lat data a :
  <["_lon" := a]> (instance lon lat data) = instance a lat data.
Proof.
  unfold instance. apply map_eq. intros k.
  destruct (decide (k = "_lon")) as [->|]; [by simplify_map_eq|].
  destruct (decide (k = "_lat")) as [->|]; [by simplify_map_eq|].
  destruct (decide (k = "_data")) as [->|]; by simplify_map_eq.
Qed.

Lemma instance_set_lat lon lat data a :
  <["_lat" := a]> (instance lon lat data) = instance lon a data.
Proof.
  unfold instance. apply map_eq. intros k.
  destruct (decide (k = "_lon")) as [->|]; [by simplify_map_eq|].
  destruct (decide (k = "_lat")) as [->|]; [by simplify_map_eq|].
  destruct (decide (k = "_data")) as [->|]; by simplify_map_eq.
Qed.

Lemma instance_set_data lon lat data a :
  <["_data" := a]> (instance lon lat data) = instance lon lat a.
Proof. unfold instance. by rewrite insert_insert_eq. Qed.

Lemma instance_inj lon lat data lon' lat' data' :
  instance lon lat data = instance lon' lat' data' →
  lon = lon' ∧ lat = lat' ∧ data = data'.
Proof.
  intros Heq. repeat split.
  - pose proof (instance_lon lon lat data) as E.
    rewrite Heq, instance_lon in E. congruence.
  - pose proof (instance_lat lon lat data) as E.
    rewrite Heq, instance_lat in E. congruence.
  - pose proof (instance_data lon lat data) as E.
    rewrite Heq, instance_data in E. congruence.
Qed.

(** *** [trim] *)

Lemma nd_and_same (a b : ndarray bool) :
  shape a = shape b → wf a → wf b →
  ∃ m, nd_and a b = Ok m ∧ shape m = shape a ∧
       flat m = zip_with andb (flat a) (flat b) ∧ wf m.
Proof.
  intros Hs Ha Hb. unfold nd_and. rewrite <- Hs, broadcast_shapes_same.
  rewrite (broadcast_to_same a), (broadcast_to_same b) by done.
  eexists; repeat split. unfold wf in *. simpl.
  rewrite length_zip_with, Ha, Hb, Hs. lia.
Qed.

Lemma nd_and_shape (a b : ndarray bool) :
  shape a = shape b → ∃ m, nd_and a b = Ok m ∧ shape m = shape a.
Proof.
  intros Hs. unfold nd_and. rewrite <- Hs, broadcast_shapes_same. eauto.
Qed.

Lemma nd_map_wf {A B} (f : A → B) (a : ndarray A) : wf a → wf (nd_map f a).
Proof. unfold wf. simpl. by rewrite length_fmap. Qed.

Lemma zip_with_and4 {A B} (f0 f1 : A → bool) (f2 f3 : B → bool) xs ys :
  zip_with andb (zip_with andb (zip_with andb (f0 <$> xs) (f1 <$> xs)) (f2 <$> ys))
    (f3 <$> ys) =
  zip_with (λ x y, f0 x && f1 x && f2 y && f3 y) xs ys.
Proof.
  revert ys. induction xs as [|x xs IH]; intros [|y ys]; try done.
  simpl. by rewrite <- IH.
Qed.

Lemma box_mask_length xmin xmax ymin ymax lon lat :
  length (flat lon) = length (flat lat) →
  length (box_mask xmin xmax ymin ymax lon lat) = length (flat lon).
Proof. intros Hlen. unfold box_mask. rewrite length_zip_with. lia. Qed.

Lemma masked_wf {A} flags (a : ndarray A) :
  length flags = length (flat a) → wf (masked flags a).
Proof.
  intros Hlen. unfold wf, masked. simpl.
  rewrite compress_length by done. lia.
Qed.

Lemma item_here (x : T) xs : item (x :: xs) 0 = Ok x.
Proof. done. Qed.

Lemma item_next (x : T) xs i : item (x :: xs) (S i) = item xs i.
Proof. done. Qed.

Lemma item_nil i : item (@nil T) i = Raise IndexError.
Proof. by destruct i. Qed.

(** One step of a method body run on an instance: an attribute read, a
    subscript of the bounds, a pure result, an assignment. *)
Ltac step :=
  first
    [ erewrite (bind_getattr "_lon") by apply instance_lon
    | erewrite (bind_getattr "_lat") by apply instance_lat
    | erewrite (bind_getattr "_data") by apply instance_data
    | rewrite item_next
    | rewrite item_here
    | rewrite bind_lift_Ok
    | rewrite bind_setattr, ?instance_set_lon, ?instance_set_lat
    | progress cbv zeta ].

(** What [trim] does to a cloud, for bounds that start with the four
    sides of a box. *)
Lemma trim_cloud_bounds self lon lat data xmin xmax ymin ymax rest :
  is_cloud self lon lat data →
  let flags := box_mask xmin xmax ymin ymax lon lat in
  trim (xmin :: xmax :: ymin :: ymax :: rest) self =
    (instance (masked flags lon) (masked flags lat) (masked flags data), Ok ()).
Proof.
  intros (-> & Hs1 & Hs2 & Hlon & Hlat & Hdata) flags. unfold trim.
  repeat step.
  destruct (nd_and_same (nd_map (λ x, sc_lt xmin x) lon) (nd_map (λ x, sc_lt x xmax) lon))
    as (m01 & -> & Hs01 & Hf01 & Hwf01); [done | by apply nd_map_wf..|].
  repeat step.
  destruct (nd_and_same m01 (nd_map (λ y, sc_lt ymin y) lat))
    as (m012 & -> & Hs012 & Hf012 & Hwf012);
    [by rewrite Hs01 | done | by apply nd_map_wf|].
  repeat step.
  destruct (nd_and_same m012 (nd_map (λ y, sc_lt y ymax) lat))
    as (inside & -> & Hsi & Hfi & Hwfi);
    [by rewrite Hs012, Hs01 | done | by apply nd_map_wf|].
  assert (shape inside = shape lon) as Hshape by (by rewrite Hsi, Hs012, Hs01).
  assert (flat inside = flags) as Hflags.
  { rewrite Hfi, Hf012, Hf01. apply zip_with_and4. }
  repeat step. rewrite getitem_mask_same by done.
  repeat step. rewrite getitem_mask_same by congruence.
  repeat step. rewrite getitem_mask_same by congruence.
  repeat step. unfold setattr. rewrite instance_set_data.
  by rewrite Hflags.
Qed.

Lemma trim_cloud self lon lat data xmin xmax ymin ymax :
  is_cloud self lon lat data →
  let flags := box_mask xmin xmax ymin ymax lon lat in
  trim [xmin; xmax; ymin; ymax] self =
    (instance (masked flags lon) (masked flags lat) (masked flags data), Ok ()).
Proof. apply trim_cloud_bounds. Qed.

Lemma is_cloud_lengths self lon lat data :
  is_cloud self lon lat data →
  length (flat lat) = length (flat lon) ∧ length (flat data) = length (flat lon).
Proof.
  intros (_ & Hs1 & Hs2 & Hlon & Hlat & Hdata). unfold wf in *.
  rewrite Hlon, Hlat, Hdata, Hs1, Hs2. done.
Qed.

Lemma box_mask_points xmin xmax ymin ymax lon lat data :
  length (flat lat) = length (flat lon) → length (flat data) = length (flat lon) →
  box_mask xmin xmax ymin ymax lon lat =
    inside xmin xmax ymin ymax <$> points lon lat data.
Proof.
  unfold box_mask, points.
  generalize (flat lon) (flat lat) (flat data). clear.
  intros xs. induction xs as [|x xs IH]; intros [|y ys] [|d ds] ??; try done.
  simpl in *. f_equal. apply IH; lia.
Qed.

Lemma points_masked flags lon lat data :
  length (flat lat) = length (flat lon) → length (flat data) = length (flat lon) →
  points (masked flags lon) (masked flags lat) (masked flags data) =
    compress flags (points lon lat data).
Proof.
  intros Hlat Hdata. unfold points, masked. simpl.
  rewrite compress_zip by (rewrite length_zip; lia).
  by rewrite compress_zip.
Qed.

(** [trim] turns a cloud into a cloud, whose points are the points that
    pass the test, in their order. *)
Lemma trim_filter self lon lat data xmin xmax ymin ymax :
  is_cloud self lon lat data →
  ∃ lon' lat' data',
    trim [xmin; xmax; ymin; ymax] self = (instance lon' lat' data', Ok ()) ∧
    is_cloud (instance lon' lat' data') lon' lat' data' ∧
    points lon' lat' data' =
      filter (λ p, inside xmin xmax ymin ymax p) (points lon lat data).
Proof.
  intros Hc. destruct (is_cloud_lengths _ _ _ _ Hc) as [Hlat Hdata].
  pose proof (box_mask_length xmin xmax ymin ymax lon lat (eq_sym Hlat)) as Hlen.
  eexists _, _, _. split; [by apply trim_cloud|]. split.
  - repeat split; try done; apply masked_wf; congruence.
  - rewrite points_masked by done.
    rewrite (box_mask_points _ _ _ _ _ _ data) by done.
    apply compress_fmap.
Qed.

Lemma inside_not_outside xmin xmax ymin ymax p :
  outside xmin xmax ymin ymax p → inside xmin xmax ymin ymax p = false.
Proof.
  unfold outside, inside. intros [Ho|[Ho|[Ho|Ho]]];
    apply sc_lt_asym in Ho; rewrite Ho; simpl;
    by rewrite ?andb_false_r.
Qed.

Lemma inside_not_on_boundary xmin xmax ymin ymax p :
  on_boundary xmin xmax ymin ymax p → inside xmin xmax ymin ymax p = false.
Proof.
  unfold on_boundary, inside. intros [Ho|[Ho|[Ho|Ho]]];
    rewrite Ho, sc_lt_irrefl; simpl; by rewrite ?andb_false_r.
Qed.

(** With fewer than four bounds [trim] raises [IndexError] before it
    assigns anything. *)
Lemma trim_short bounds self :
  same_shape self → length bounds < 4 → trim bounds self = (self, Raise IndexError).
Proof.
  intros (lon & lat & data & -> & Hs1 & Hs2 & Hs3) Hlen.
  unfold trim. step.
  destruct bounds as [|b0 bounds]; [by rewrite ?item_next, item_nil|].
  repeat step.
  destruct bounds as [|b1 bounds]; [by rewrite ?item_next, item_nil|].
  repeat step.
  destruct (nd_and_shape (nd_map (λ x, sc_lt b0 x) lon) (nd_map (λ x, sc_lt x b1) lon))
    as (m01 & -> & Hs01); [done|].
  repeat step.
  destruct bounds as [|b2 bounds]; [by rewrite ?item_next, item_nil|].
  repeat step.
  destruct (nd_and_shape m01 (nd_map (λ y, sc_lt b2 y) lat))
    as (m012 & -> & Hs012); [by rewrite Hs01|].
  repeat step.
  destruct bounds as [|b3 bounds]; [by rewrite ?item_next, item_nil|].
  simpl in Hlen. lia.
Qed.

(** With four bounds or more [trim] returns, and the three new arrays are
    one-dimensional, of one length: that holds for the shapes alone,
    whatever the elements are. *)
Lemma trim_shapes self xmin xmax ymin ymax rest :
  same_shape self →
  ∃ n xs ys ds,
    trim (xmin :: xmax :: ymin :: ymax :: rest) self =
      (instance (NDArray [n] xs) (NDArray [n] ys) (NDArray [n] ds), Ok ()).
Proof.
  intros (lon & lat & data & -> & Hs1 & Hs2 & Hs3).
  unfold trim. repeat step.
  destruct (nd_and_shape (nd_map (λ x, sc_lt xmin x) lon) (nd_map (λ x, sc_lt x xmax) lon))
    as (m01 & -> & Hs01); [done|].
  repeat step.
  destruct (nd_and_shape m01 (nd_map (λ y, sc_lt ymin y) lat))
    as (m012 & -> & Hs012); [by rewrite Hs01|].
  repeat step.
  destruct (nd_and_shape m012 (nd_map (λ y, sc_lt y ymax) lat))
    as (inside & -> & Hsi); [by rewrite Hs012, Hs01|].
  assert (shape inside = shape lon) as Hshape by (by rewrite Hsi, Hs012, Hs01).
  repeat step. destruct (getitem_mask_shape lon inside) as [xs ->]; [done|].
  repeat step. destruct (getitem_mask_shape lat inside) as [ys ->]; [congruence|].
  repeat step. destruct (getitem_mask_shape data inside) as [ds ->]; [congruence|].
  repeat step. unfold setattr. rewrite instance_set_data. eauto.
Qed.

(** [trim] keeps the three shapes equal, whatever the bounds and the
    elements are. *)
Lemma trim_same_shape bounds self : same_shape self → same_shape (trim bounds self).1.
Proof.
  intros Hsame. destruct (decide (length bounds < 4)) as [Hlen|Hlen].
  - by rewrite trim_short.
  - destruct bounds as [|xmin [|xmax [|ymin [|ymax rest]]]]; simpl in Hlen; try lia.
    destruct (trim_shapes _ xmin xmax ymin ymax rest Hsame) as (n & xs & ys & ds & ->).
    by eexists _, _, _.
Qed.

(** *** [setData] *)

Lemma setData_array lon lat data d :
  setData (PyArray d) (instance lon lat data) =
    if decide (shape d ≠ shape lon)
    then (instance lon lat data,
          Raise (DataSetException
                   "Cloud.setData() input data must match dimensions of lat/lon"))
    else (instance lon lat d, Ok ()).
Proof.
  unfold setData. simpl with_shape. rewrite bind_lift_Ok.
  rewrite (bind_getattr "_lon" _ _ lon) by apply instance_lon.
  case_decide; [done|]. unfold setattr. by rewrite instance_set_data.
Qed.

Lemma setData_non_array o self :
  (∀ d, o ≠ PyArray d) → setData o self = (self, Raise (AttributeError "shape")).
Proof. intros Ho. destruct o; try done. by destruct (Ho a). Qed.

Lemma setData_same_shape o self : same_shape self → same_shape (setData o self).1.
Proof.
  intros Hsame.
  destruct o as [d| | | |]; try by rewrite setData_non_array.
  destruct Hsame as (lon & lat & data & -> & Hs1 & Hs2 & Hs3).
  rewrite setData_array. case_decide as Hd; simpl; eexists _, _, _; [done|].
  repeat split; congruence.
Qed.

(** *** Read-only methods *)

Lemma getattr_fst {A} name (k : ndarray T → method A) self :
  (∀ a self', (k a self').1 = self') → ((getattr name ≫= k) self).1 = self.
Proof.
  intros Hk. unfold mbind, method_bind, getattr.
  destruct (self !! name); [apply Hk | done].
Qed.

Lemma lift_fst {A B} (r : result A) (k : A → method B) self :
  (∀ a self', (k a self').1 = self') → ((lift r ≫= k) self).1 = self.
Proof. intros Hk. destruct r; [apply Hk | done]. Qed.

Lemma getBounds_fst self : (getBounds self).1 = self.
Proof.
  unfold getBounds.
  repeat (first [apply getattr_fst; intros ?? | apply lift_fst; intros ??]).
  done.
Qed.

Lemma getData_fst self : (getData self).1 = self.
Proof. unfold getData, getattr. by destruct (self !! "_data"). Qed.

End CloudFacts.

(** ** The class [Cloud] *)

Section CloudTheorems.
Context {T : Type} `{Scalar T}.
Variable geodetic_distance : T → T → ndarray T → ndarray T → result (ndarray T).
Variable GeoDict : Type.
Implicit Types (self : obj T) (lon lat data : ndarray T) (o : pyobj T).

(** What the constructor does with three arrays. *)
Lemma Cloud_arrays lon lat data :
  Cloud (PyArray lon) (PyArray lat) (PyArray data) =
    if decide (shape lon ≠ shape lat) then
      Raise (DataSetException "Input lat/lon/data arrays must have same shape.")
    else if decide (shape lon ≠ shape data ∨ shape lat ≠ shape data) then
      Raise (DataSetException "Input lat/lon/data arrays must have same shape.")
    else Ok (instance lon lat data).
Proof.
  unfold Cloud, Cloud_init. simpl with_shape. rewrite !bind_lift_Ok.
  case_decide; [done|]. rewrite bind_lift_Ok.
  case_decide; [done|]. done.
Qed.

(** The constructor returns an object only from three arrays of one shape. *)
Lemma Cloud_Ok o1 o2 o3 self :
  Cloud o1 o2 o3 = Ok self →
  ∃ lon lat data, o1 = PyArray lon ∧ o2 = PyArray lat ∧ o3 = PyArray data ∧
    self = instance lon lat data ∧
    shape lon = shape lat ∧ shape lon = shape data ∧ shape lat = shape data.
Proof.
  intros Hc.
  destruct o1 as [lon| | | |]; try done.
  destruct o2 as [lat| | | |]; try done.
  destruct o3 as [data| | | |];
    try (unfold Cloud, Cloud_init in Hc; simpl with_shape in Hc;
         rewrite !bind_lift_Ok in Hc; by case_decide).
  rewrite Cloud_arrays in Hc. repeat case_decide; try done.
  injection Hc as <-. eexists _, _, _. repeat split; try done.
  all: apply dec_stable; naive_solver.
Qed.

(** C3. From three arrays of equal shape the constructor returns an object
    that stores them, each under its attribute; when two of the three
    shapes differ it raises [DataSetException]. *)
Theorem Cloud_construction lon lat data :
  (shape lon = shape lat → shape lon = shape data → shape lat = shape data →
   ∃ self, Cloud (PyArray lon) (PyArray lat) (PyArray data) = Ok self ∧
     self !! "_lon" = Some lon ∧ self !! "_lat" = Some lat ∧
     self !! "_data" = Some data ∧ getData self = (self, Ok data)) ∧
  (shape lon ≠ shape lat ∨ shape lon ≠ shape data ∨ shape lat ≠ shape data →
   ∃ msg, Cloud (PyArray lon) (PyArray lat) (PyArray data) = Raise (DataSetException msg)).
Proof.
  rewrite Cloud_arrays. split.
  - intros H1 H2 H3. exists (instance lon lat data).
    rewrite decide_False by (by intros []).
    rewrite decide_False by (by intros [[]|[]]).
    unfold getData, getattr.
    by rewrite instance_lon, instance_lat, instance_data.
  - intros Hne. repeat case_decide; eauto. tauto.
Qed.

(** C2, as the code has it. On a cloud, [setData] returns exactly when its
    argument is an array of the shape of the coordinate arrays, and then
    the argument is the new value array; an array of another shape raises
    [DataSetException]; an argument that is no array has no [shape] and
    raises [AttributeError]. The object is as before after either error. *)
Theorem setData_outcome self lon lat data o :
  is_cloud self lon lat data →
  ((setData o self).2 = Ok () ↔ ∃ d, o = PyArray d ∧ shape d = shape lon) ∧
  (∀ d, o = PyArray d → shape d = shape lon →
     setData o self = (instance lon lat d, Ok ())) ∧
  (∀ d, o = PyArray d → shape d ≠ shape lon →
     ∃ msg, setData o self = (self, Raise (DataSetException msg))) ∧
  ((∀ d, o ≠ PyArray d) → setData o self = (self, Raise (AttributeError "shape"))).
Proof.
  intros (-> & _). split; [|split; [|split]].
  - destruct o as [d| | | |]; try (split; [done | by intros (? & ? & ?)]).
    rewrite setData_array. case_decide as Hd; simpl.
    + split; [done|]. by intros (? & [= <-] & ?).
    + split; [|done]. intros _. by exists d.
  - intros d -> Hd. rewrite setData_array. by rewrite decide_False by (by intros []).
  - intros d -> Hd. rewrite setData_array. rewrite decide_True by done. eauto.
  - apply setData_non_array.
Qed.

(** C9. When [setData] raises the shape-mismatch error, the object is what
    it was before the call: no attribute was assigned. *)
Theorem setData_rejected_unchanged self o msg :
  (setData o self).2 = Raise (DataSetException msg) → (setData o self).1 = self.
Proof.
  destruct o as [d| | | |]; try done.
  unfold setData. simpl with_shape. rewrite bind_lift_Ok.
  unfold mbind, method_bind, getattr.
  destruct (self !! "_lon") as [lon|]; [|done].
  by case_decide.
Qed.

(** C6. [getValue] with a method other than ['nearest'] raises
    [NotImplementedError], and so does every call of [interpolateToGrid];
    neither touches the object. *)
Theorem not_implemented self :
  (∀ (lat0 lon0 : T) (method_ : string),
     method_ ≠ "nearest" →
     ∃ msg, getValue geodetic_distance lat0 lon0 method_ self =
              (self, Raise (NotImplementedError msg))) ∧
  (∀ (geodict : GeoDict) (method_ : string),
     ∃ msg, interpolateToGrid geodict method_ self =
              (self, Raise (NotImplementedError msg))).
Proof.
  split.
  - intros lat0 lon0 m Hm. unfold getValue. rewrite decide_False by done. by eexists.
  - intros geodict m. by eexists.
Qed.

(** C1, as the code has it. On every cloud the nearest-neighbour lookup
    raises [AttributeError]: it reads the attribute [_lons], while the
    coordinates are stored under [_lon] and [_lat]. No value is returned. *)
Theorem getValue_nearest_raises self lon lat data (lat0 lon0 : T) :
  is_cloud self lon lat data →
  getValue geodetic_distance lat0 lon0 "nearest" self =
    (self, Raise (AttributeError "_lons")).
Proof.
  intros (-> & _). unfold getValue. rewrite decide_True by done.
  by rewrite bind_getattr_missing by (by apply instance_other).
Qed.


Lemma is_min_unique (x y : T) xs : is_min x xs → is_min y xs → x = y.
Proof. intros [Hx Hlex] [Hy Hley]. apply sc_lt_total; auto. Qed.

Lemma is_max_unique (x y : T) xs : is_max x xs → is_max y xs → x = y.
Proof. intros [Hx Hlex] [Hy Hley]. apply sc_lt_total; auto. Qed.

(** C7. On a cloud that has a point, [getBounds] returns, in this order,
    the smallest and the largest stored longitude and the smallest and the
    largest stored latitude. *)
Theorem getBounds_min_max self lon lat data :
  is_cloud self lon lat data → flat lon ≠ [] →
  ∃ x0 x1 y0 y1,
    getBounds self = (self, Ok (x0, x1, y0, y1)) ∧
    is_min x0 (flat lon) ∧ is_max x1 (flat lon) ∧
    is_min y0 (flat lat) ∧ is_max y1 (flat lat).
Proof.
  intros Hc Hlon. destruct (is_cloud_lengths _ _ _ _ Hc) as [Hlen _].
  assert (flat lat ≠ []) as Hlat.
  { intros E. rewrite E in Hlen. by destruct (flat lon). }
  destruct Hc as (-> & _).
  destruct (nd_min_is_min lon Hlon) as (x0 & Ex0 & Hx0).
  destruct (nd_max_is_max lon Hlon) as (x1 & Ex1 & Hx1).
  destruct (nd_min_is_min lat Hlat) as (y0 & Ey0 & Hy0).
  destruct (nd_max_is_max lat Hlat) as (y1 & Ey1 & Hy1).
  exists x0, x1, y0, y1. split; [|done]. unfold getBounds.
  rewrite (bind_getattr "_lon" _ _ lon) by apply instance_lon.
  rewrite Ex0, bind_lift_Ok.
  rewrite (bind_getattr "_lon" _ _ lon) by apply instance_lon.
  rewrite Ex1, bind_lift_Ok.
  rewrite (bind_getattr "_lat" _ _ lat) by apply instance_lat.
  rewrite Ey0, bind_lift_Ok.
  rewrite (bind_getattr "_lat" _ _ lat) by apply instance_lat.
  by rewrite Ey1, bind_lift_Ok.
Qed.

(** C4. After [trim] with the box [(xmin, xmax, ymin, ymax)] the cloud
    holds exactly its former points that pass
    [xmin < lon < xmax and ymin < lat < ymax]: no point strictly outside the
    box is left in the three arrays, and every point strictly inside it is
    still there. *)
Theorem trim_outside_removed_inside_retained self lon lat data xmin xmax ymin ymax :
  is_cloud self lon lat data →
  ∃ lon' lat' data',
    trim [xmin; xmax; ymin; ymax] self = (instance lon' lat' data', Ok ()) ∧
    points lon' lat' data' =
      filter (λ p, inside xmin xmax ymin ymax p) (points lon lat data) ∧
    (∀ p, outside xmin xmax ymin ymax p → p ∉ points lon' lat' data') ∧
    (∀ p, p ∈ points lon lat data → inside xmin xmax ymin ymax p = true →
          p ∈ points lon' lat' data').
Proof.
  intros Hc.
  destruct (trim_filter _ _ _ _ xmin xmax ymin ymax Hc)
    as (lon' & lat' & data' & Htrim & _ & Hpts).
  exists lon', lat', data'. rewrite Hpts. repeat split; try done.
  - intros p Hout [Hin _]%list_elem_of_filter.
    rewrite (inside_not_outside _ _ _ _ _ Hout) in Hin. done.
  - intros p Hp Hin. apply list_elem_of_filter. split; [by rewrite Hin | done].
Qed.

(** C8. [trim] also drops every point on the boundary of the box: a point
    whose longitude is [xmin] or [xmax], or whose latitude is [ymin] or
    [ymax], fails one of the strict comparisons. *)
Theorem trim_removes_boundary self lon lat data xmin xmax ymin ymax :
  is_cloud self lon lat data →
  ∃ lon' lat' data',
    trim [xmin; xmax; ymin; ymax] self = (instance lon' lat' data', Ok ()) ∧
    ∀ p, on_boundary xmin xmax ymin ymax p → p ∉ points lon' lat' data'.
Proof.
  intros Hc.
  destruct (trim_filter _ _ _ _ xmin xmax ymin ymax Hc)
    as (lon' & lat' & data' & Htrim & _ & Hpts).
  exists lon', lat', data'. split; [done|].
  intros p Hb. rewrite Hpts. intros [Hin _]%list_elem_of_filter.
  rewrite (inside_not_on_boundary _ _ _ _ _ Hb) in Hin. done.
Qed.

(** C10. [trim] selects from the three arrays with one list of flags, one
    flag per index: the new arrays are the entries of the old ones at the
    flagged indices, so the new points are the old points at those indices,
    each with the longitude, latitude and value it had, in their former
    order. *)
Theorem trim_one_mask self lon lat data xmin xmax ymin ymax :
  is_cloud self lon lat data →
  ∃ flags : list bool,
    length flags = length (points lon lat data) ∧
    trim [xmin; xmax; ymin; ymax] self =
      (instance (masked flags lon) (masked flags lat) (masked flags data), Ok ()) ∧
    flat (masked flags lon) = compress flags (flat lon) ∧
    flat (masked flags lat) = compress flags (flat lat) ∧
    flat (masked flags data) = compress flags (flat data) ∧
    points (masked flags lon) (masked flags lat) (masked flags data) =
      compress flags (points lon lat data) ∧
    points (masked flags lon) (masked flags lat) (masked flags data)
      `sublist_of` points lon lat data.
Proof.
  intros Hc. destruct (is_cloud_lengths _ _ _ _ Hc) as [Hlat Hdata].
  exists (box_mask xmin xmax ymin ymax lon lat).
  rewrite points_masked by done. repeat split.
  - rewrite (box_mask_points _ _ _ _ _ _ data) by done. apply length_fmap.
  - by apply trim_cloud.
  - apply compress_sublist.
Qed.

(** *** The invariant *)

(** [getValue] reads and never assigns. *)
Lemma getValue_fst self (lat0 lon0 : T) m :
  (getValue geodetic_distance lat0 lon0 m self).1 = self.
Proof.
  unfold getValue. case_decide; [|done].
  unfold mbind, method_bind, getattr.
  destruct (self !! "_lons"); [|done].
  destruct (self !! "_lats"); [|done]. simpl.
  destruct (geodetic_distance _ _ _ _) as [d|]; [|done]. simpl.
  destruct (nd_argmin d); [|done]. simpl.
  destruct (self !! "_data"); done.
Qed.

Lemma exec_same_shape (c : call T GeoDict) self :
  same_shape self → same_shape (exec geodetic_distance c self).
Proof.
  intros Hsame. destruct c as [|o| |bounds|lat0 lon0 m|g m]; simpl.
  - by rewrite getData_fst.
  - by apply setData_same_shape.
  - by rewrite getBounds_fst.
  - by apply trim_same_shape.
  - by rewrite getValue_fst.
  - done.
Qed.

(** Clouds are what the constructor and the methods produce from
    arguments a caller can build. *)
Lemma Cloud_is_cloud o1 o2 o3 self :
  valid_obj o1 → valid_obj o2 → valid_obj o3 →
  Cloud o1 o2 o3 = Ok self → ∃ lon lat data, is_cloud self lon lat data.
Proof.
  intros V1 V2 V3 (lon & lat & data & -> & -> & -> & -> & Hs1 & Hs2 & Hs3)%Cloud_Ok.
  by exists lon, lat, data.
Qed.

Lemma is_cloud_same_shape self lon lat data : is_cloud self lon lat data → same_shape self.
Proof.
  intros (-> & Hs1 & Hs2 & _). exists lon, lat, data. repeat split; congruence.
Qed.

Lemma exec_is_cloud (c : call T GeoDict) self lon lat data :
  valid_call c → is_cloud self lon lat data →
  ∃ lon' lat' data', is_cloud (exec geodetic_distance c self) lon' lat' data'.
Proof.
  intros Hv Hc. destruct c as [|o| |bounds|lat0 lon0 m|g m]; simpl.
  - rewrite getData_fst. eauto.
  - destruct o as [d| | | |]; try (rewrite setData_non_array by done; eauto).
    destruct Hc as (-> & Hs1 & Hs2 & Hlon & Hlat & Hdata).
    rewrite setData_array. case_decide as Hd; simpl; eexists _, _, _; [done|].
    repeat split; try done. congruence.
  - rewrite getBounds_fst. eauto.
  - destruct (decide (length bounds < 4)) as [Hlen|Hlen].
    + rewrite trim_short by eauto using is_cloud_same_shape. eauto.
    + destruct bounds as [|xmin [|xmax [|ymin [|ymax rest]]]]; simpl in Hlen; try lia.
      rewrite (trim_cloud_bounds _ lon lat data) by done. simpl.
      destruct (is_cloud_lengths _ _ _ _ Hc) as [Hlat Hdata].
      pose proof (box_mask_length xmin xmax ymin ymax lon lat (eq_sym Hlat)).
      eexists _, _, _. repeat split; try done; apply masked_wf; congruence.
  - rewrite getValue_fst. eauto.
  - eauto.
Qed.

Lemma run_is_cloud (calls : list (call T GeoDict)) self lon lat data :
  Forall valid_call calls → is_cloud self lon lat data →
  ∃ lon' lat' data', is_cloud (run geodetic_distance calls self) lon' lat' data'.
Proof.
  intros Hv. revert self lon lat data. unfold run.
  induction Hv as [|c calls Hc _ IH]; intros self lon lat data Hself; [eauto|].
  simpl. destruct (exec_is_cloud c _ _ _ _ Hc Hself) as (? & ? & ? & ?). eauto.
Qed.

(** C5. The three arrays of a constructed [Cloud] have one shape, and they
    still have one shape after any sequence of calls of [getData],
    [setData], [getBounds], [trim], [getValue] and [interpolateToGrid],
    whatever the arguments and whether the calls return or raise. *)
Theorem same_shape_invariant o1 o2 o3 self (calls : list (call T GeoDict)) :
  Cloud o1 o2 o3 = Ok self →
  same_shape self ∧ same_shape (run geodetic_distance calls self).
Proof.
  intros (lon & lat & data & _ & _ & _ & -> & Hs)%Cloud_Ok.
  assert (same_shape (instance lon lat data)) as Hsame by (by eexists _, _, _).
  split; [done|]. revert Hsame. generalize (instance lon lat data).
  unfold run. induction calls as [|c calls IH]; intros self Hsame; [done|].
  simpl. apply IH. by apply exec_same_shape.
Qed.

End CloudTheorems.

(** ** Runs on the sample cloud *)

(** The sample object is a cloud. *)
Lemma sample_is_cloud : is_cloud Sample.cloud Sample.lon Sample.lat Sample.data.
Proof. by repeat split. Qed.

Example sample_trim :
  trim [1; 7; 0; 100]%Z Sample.cloud =
    (instance (array1 [5; 3]%Z) (array1 [20; 30]%Z) (array1 [200; 300]%Z), Ok ()).
Proof. by rewrite (trim_cloud _ _ _ _ _ _ _ _ sample_is_cloud). Qed.

Example sample_trim_short :
  trim [1; 7; 0]%Z Sample.cloud = (Sample.cloud, Raise IndexError).
Proof. vm_compute. reflexivity. Qed.

Example sample_getBounds :
  getBounds Sample.cloud = (Sample.cloud, Ok (1, 7, 10, 40)%Z).
Proof. vm_compute. reflexivity. Qed.

(** The nearest-neighbour lookup on the sample cloud raises. *)
Lemma getValue_nearest_raises_sample :
  is_cloud Sample.cloud Sample.lon Sample.lat Sample.data ∧
  getValue Sample.distance 10%Z 1%Z "nearest" Sample.cloud =
    (Sample.cloud, Raise (AttributeError "_lons")).
Proof.
  split; [by repeat split|].
  apply (getValue_nearest_raises Sample.distance Sample.cloud Sample.lon Sample.lat Sample.data).
  by repeat split.
Defined.

(** C2, as stated, fails: a list of four numbers is no array, and [setData]
    turns it down with [AttributeError], not with [DataSetException]. *)
Lemma setData_list_raises_AttributeError :
  is_cloud Sample.cloud Sample.lon Sample.lat Sample.data ∧
  setData (PyList [100; 200; 300; 400]%Z) Sample.cloud =
    (Sample.cloud, Raise (AttributeError "shape")) ∧
  ∀ msg, (setData (PyList [100; 200; 300; 400]%Z) Sample.cloud).2 ≠
           Raise (DataSetException msg).
Proof. split; [by repeat split|]. split; [reflexivity | discriminate]. Qed.

(** [setData] on the sample cloud: an array of four elements, an array of
    five, a plain number. *)
Lemma setData_outcome_sample :
  is_cloud Sample.cloud Sample.lon Sample.lat Sample.data ∧
  setData (PyArray Sample.lat) Sample.cloud =
    (instance Sample.lon Sample.lat Sample.lat, Ok ()) ∧
  (∃ msg, setData (PyArray Sample.data5) Sample.cloud =
            (Sample.cloud, Raise (DataSetException msg))) ∧
  setData (PyNum 5%Z) Sample.cloud = (Sample.cloud, Raise (AttributeError "shape")).
Proof.
  assert (is_cloud Sample.cloud Sample.lon Sample.lat Sample.data) as Hc
    by (by repeat split).
  destruct (setData_outcome _ _ _ _ (PyArray Sample.lat) Hc) as (_ & Hsame & _).
  destruct (setData_outcome _ _ _ _ (PyArray Sample.data5) Hc) as (_ & _ & Hother & _).
  destruct (setData_outcome _ _ _ _ (PyNum 5%Z) Hc) as (_ & _ & _ & Hnone).
  split; [exact Hc|]. split; [|split].
  - by apply (Hsame Sample.lat).
  - by apply (Hother Sample.data5).
  - by apply Hnone.
Defined.

(** The constructor on the sample arrays, and with a value array of five
    elements against coordinates of four. *)
Lemma Cloud_construction_sample :
  (∃ self, Cloud (PyArray Sample.lon) (PyArray Sample.lat) (PyArray Sample.data) = Ok self ∧
     self !! "_lon" = Some Sample.lon ∧ self !! "_lat" = Some Sample.lat ∧
     self !! "_data" = Some Sample.data ∧ getData self = (self, Ok Sample.data)) ∧
  (∃ msg, Cloud (PyArray Sample.lon) (PyArray Sample.lat) (PyArray Sample.data5) =
            Raise (DataSetException msg)).
Proof.
  split.
  - by apply (Cloud_construction Sample.lon Sample.lat Sample.data).
  - apply (Cloud_construction Sample.lon Sample.lat Sample.data5). right. by left.
Defined.

(** [trim] of the sample cloud to the box [(1, 7, 0, 100)]. *)
Lemma trim_sample :
  is_cloud Sample.cloud Sample.lon Sample.lat Sample.data ∧
  ∃ lon' lat' data',
    trim [1; 7; 0; 100]%Z Sample.cloud = (instance lon' lat' data', Ok ()) ∧
    points lon' lat' data' =
      filter (λ p, inside 1%Z 7%Z 0%Z 100%Z p)
        (points Sample.lon Sample.lat Sample.data) ∧
    (∀ p, outside 1%Z 7%Z 0%Z 100%Z p → p ∉ points lon' lat' data') ∧
    (∀ p, p ∈ points Sample.lon Sample.lat Sample.data →
          inside 1%Z 7%Z 0%Z 100%Z p = true → p ∈ points lon' lat' data').
Proof.
  split; [by repeat split|].
  apply (trim_outside_removed_inside_retained
           Sample.cloud Sample.lon Sample.lat Sample.data).
  by repeat split.
Defined.

(** The sample points of longitude [1] and [7] lie on the box
    [(1, 7, 0, 100)] and are dropped. *)
Lemma trim_boundary_sample :
  is_cloud Sample.cloud Sample.lon Sample.lat Sample.data ∧
  ∃ lon' lat' data',
    trim [1; 7; 0; 100]%Z Sample.cloud = (instance lon' lat' data', Ok ()) ∧
    ∀ p, on_boundary 1%Z 7%Z 0%Z 100%Z p → p ∉ points lon' lat' data'.
Proof.
  split; [by repeat split|].
  apply (trim_removes_boundary Sample.cloud Sample.lon Sample.lat Sample.data).
  by repeat split.
Defined.

(** The flags [trim] selects the sample points with. *)
Lemma trim_one_mask_sample :
  is_cloud Sample.cloud Sample.lon Sample.lat Sample.data ∧
  ∃ flags : list bool,
    length flags = length (points Sample.lon Sample.lat Sample.data) ∧
    trim [1; 7; 0; 100]%Z Sample.cloud =
      (instance (masked flags Sample.lon) (masked flags Sample.lat)
         (masked flags Sample.data), Ok ()) ∧
    flat (masked flags Sample.lon) = compress flags (flat Sample.lon) ∧
    flat (masked flags Sample.lat) = compress flags (flat Sample.lat) ∧
    flat (masked flags Sample.data) = compress flags (flat Sample.data) ∧
    points (masked flags Sample.lon) (masked flags Sample.lat) (masked flags Sample.data) =
      compress flags (points Sample.lon Sample.lat Sample.data) ∧
    points (masked flags Sample.lon) (masked flags Sample.lat) (masked flags Sample.data)
      `sublist_of` points Sample.lon Sample.lat Sample.data.
Proof.
  split; [by repeat split|].
  apply (trim_one_mask Sample.cloud Sample.lon Sample.lat Sample.data).
  by repeat split.
Defined.

(** A run of seven calls on the sample cloud, some of which raise. *)
Lemma same_shape_invariant_sample :
  Cloud (PyArray Sample.lon) (PyArray Sample.lat) (PyArray Sample.data) = Ok Sample.cloud ∧
  same_shape Sample.cloud ∧
  same_shape
    (run Sample.distance
       [CallTrim [1; 7; 0; 100]%Z; CallSetData (PyArray Sample.data5);
        CallGetValue 10%Z 1%Z "nearest"; CallInterpolateToGrid () "linear";
        CallSetData (PyArray (array1 [8; 9]%Z)); CallGetBounds; CallGetData]
       Sample.cloud).
Proof.
  split; [reflexivity|].
  apply (same_shape_invariant Sample.distance unit
           (PyArray Sample.lon) (PyArray Sample.lat) (PyArray Sample.data)).
  reflexivity.
Defined.

(** ['linear'] is not implemented, for [getValue] and for
    [interpolateToGrid]. *)
Lemma not_implemented_sample :
  (∃ msg, getValue Sample.distance 10%Z 1%Z "linear" Sample.cloud =
            (Sample.cloud, Raise (NotImplementedError msg))) ∧
  (∃ msg, interpolateToGrid () "linear" Sample.cloud =
            (Sample.cloud, Raise (NotImplementedError msg))).
Proof.
  destruct (not_implemented Sample.distance unit Sample.cloud) as [Hget Hgrid].
  split; [by apply Hget | apply Hgrid].
Defined.

(** The bounds of the sample cloud. *)
Lemma getBounds_sample :
  is_cloud Sample.cloud Sample.lon Sample.lat Sample.data ∧ flat Sample.lon ≠ [] ∧
  ∃ x0 x1 y0 y1,
    getBounds Sample.cloud = (Sample.cloud, Ok (x0, x1, y0, y1)) ∧
    is_min x0 (flat Sample.lon) ∧ is_max x1 (flat Sample.lon) ∧
    is_min y0 (flat Sample.lat) ∧ is_max y1 (flat Sample.lat).
Proof.
  split; [by repeat split|]. split; [discriminate|].
  apply (getBounds_min_max Sample.cloud Sample.lon Sample.lat Sample.data);
    [by repeat split | discriminate].
Defined.

(** A rejected [setData] leaves the sample cloud as it was. *)
Lemma setData_rejected_sample :
  (setData (PyArray Sample.data5) Sample.cloud).2 =
    Raise (DataSetException "Cloud.setData() input data must match dimensions of lat/lon") ∧
  (setData (PyArray Sample.data5) Sample.cloud).1 = Sample.cloud.
Proof.
  split; [reflexivity|].
  apply (setData_rejected_unchanged Sample.cloud (PyArray Sample.data5)
           "Cloud.setData() input data must match dimensions of lat/lon").
  reflexivity.
Defined.

(** * Further properties *)

(** ** Flags and selections *)

Section SelectionFacts.
Context {A : Type}.
Implicit Types (xs : list A) (f g : list bool).

Lemma compress_replicate_true xs : compress (replicate (length xs) true) xs = xs.
Proof. induction xs as [|x xs IH]; [done|]. simpl. by rewrite IH. Qed.

Lemma count_true_cons b f : count_true (b :: f) = (if b then 1 else 0) + count_true f.
Proof.
  unfold count_true. destruct b.
  - by rewrite filter_cons_True.
  - by rewrite filter_cons_False by (by intros []).
Qed.

Lemma count_true_replicate n : count_true (replicate n true) = n.
Proof.
  induction n as [|n IH]; [done|].
  change (replicate (S n) true) with (true :: replicate n true).
  by rewrite count_true_cons, IH.
Qed.

(** Selecting twice is selecting once with both flags. *)
Lemma compress_compress f g xs :
  compress (compress f g) (compress f xs) = compress (zip_with andb f g) xs.
Proof.
  revert g xs. induction f as [|b f IH]; intros [|c g] [|x xs]; try done.
  - simpl. by rewrite compress_nil.
  - simpl. destruct b, c; simpl; by rewrite IH.
Qed.

Lemma count_true_compress f g :
  length g = length f → count_true (compress f g) = count_true (zip_with andb f g).
Proof.
  revert g. induction f as [|b f IH]; intros [|c g] Hlen; try done.
  simpl in *. destruct b; simpl.
  - rewrite !count_true_cons. rewrite IH by lia. done.
  - rewrite count_true_cons. simpl. apply IH. lia.
Qed.

Lemma compress_zip_with {B C} (h : A → B → C) f xs (ys : list B) :
  length xs = length ys →
  compress f (zip_with h xs ys) = zip_with h (compress f xs) (compress f ys).
Proof.
  revert xs ys. induction f as [|b f IH]; intros [|x xs] [|y ys] Hlen; try done.
  simpl in *. destruct b; simpl; by rewrite IH by lia.
Qed.

Lemma count_true_fmap (h : A → bool) xs : count_true (h <$> xs) = length (filter h xs).
Proof.
  induction xs as [|x xs IH]; [done|].
  rewrite fmap_cons, count_true_cons, IH. destruct (h x) eqn:Hx.
  - by rewrite filter_cons_True by (by apply Is_true_true).
  - by rewrite filter_cons_False by (by apply Is_true_false).
Qed.

Lemma zip_with_andb_diag f : zip_with andb f f = f.
Proof. induction f as [|b f IH]; [done|]. simpl. rewrite IH. by destruct b. Qed.

Lemma zip_with_andb_comm f g : zip_with andb f g = zip_with andb g f.
Proof.
  revert g. induction f as [|b f IH]; intros [|c g]; try done.
  simpl. rewrite IH. by destruct b, c.
Qed.

End SelectionFacts.

(** ** The class [Cloud], continued *)

Section CloudMore.
Context {T : Type} `{Scalar T}.
Variable geodetic_distance : T → T → ndarray T → ndarray T → result (ndarray T).
Variable GeoDict : Type.
Implicit Types (self : obj T) (lon lat data : ndarray T) (o : pyobj T).

(** *** The constructor and [setData] on arguments that are no arrays *)

(** X1. The constructor reads [lon.shape] and [lat.shape] first: if one of
    the two is no array it raises [AttributeError]. Two coordinate arrays
    of different shapes raise [DataSetException] before [data] is looked
    at, so even when [data] is no array. With coordinate arrays of one
    shape, a [data] that is no array raises [AttributeError]. *)
Theorem Cloud_arguments_no_array o1 o2 o3 :
  ((∀ a, o1 ≠ PyArray a) → Cloud o1 o2 o3 = Raise (AttributeError "shape")) ∧
  (∀ lon, o1 = PyArray lon → (∀ b, o2 ≠ PyArray b) →
     Cloud o1 o2 o3 = Raise (AttributeError "shape")) ∧
  (∀ lon lat, o1 = PyArray lon → o2 = PyArray lat → shape lon ≠ shape lat →
     ∃ msg, Cloud o1 o2 o3 = Raise (DataSetException msg)) ∧
  (∀ lon lat, o1 = PyArray lon → o2 = PyArray lat → shape lon = shape lat →
     (∀ d, o3 ≠ PyArray d) → Cloud o1 o2 o3 = Raise (AttributeError "shape")).
Proof.
  repeat split.
  - intros Ho1. destruct o1 as [a| | | |]; try done. by destruct (Ho1 a).
  - intros lon -> Ho2. destruct o2 as [b| | | |]; try done. by destruct (Ho2 b).
  - intros lon lat -> -> Hne. unfold Cloud, Cloud_init. simpl with_shape.
    rewrite !bind_lift_Ok. rewrite decide_True by done. by eexists.
  - intros lon lat -> -> Heq Ho3. unfold Cloud, Cloud_init. simpl with_shape.
    rewrite !bind_lift_Ok. rewrite decide_False by (by intros []).
    destruct o3 as [d| | | |]; try done. by destruct (Ho3 d).
Qed.

(** X2. Whatever the object, when [setData] returns, its argument was an
    array, [getData] returns that array next, and no other attribute has
    changed. *)
Theorem setData_getData o self :
  (setData o self).2 = Ok () →
  ∃ d, o = PyArray d ∧
       getData (setData o self).1 = ((setData o self).1, Ok d) ∧
       ∀ name, name ≠ "_data" → (setData o self).1 !! name = self !! name.
Proof.
  destruct o as [d| | | |]; try done. intros Hok. exists d. split; [done|].
  revert Hok. unfold setData. simpl with_shape. rewrite bind_lift_Ok.
  unfold mbind, method_bind, getattr.
  destruct (self !! "_lon") as [lon|]; [|done].
  case_decide; [done|]. intros _. unfold getData, getattr, setattr. simpl.
  rewrite lookup_insert_eq. split; [done|].
  intros name Hname. by rewrite lookup_insert_ne.
Qed.

(** *** Methods that only read *)

(** X3. [getData], [getBounds], [getValue] and [interpolateToGrid] leave
    the object as it is, whatever the object and the arguments, whether
    they return or raise. *)
Theorem readers_keep_object self :
  (getData self).1 = self ∧
  (getBounds self).1 = self ∧
  (∀ (lat0 lon0 : T) m, (getValue geodetic_distance lat0 lon0 m self).1 = self) ∧
  (∀ (g : GeoDict) m, (interpolateToGrid g m self).1 = self).
Proof.
  split; [apply getData_fst|]. split; [apply getBounds_fst|].
  split; [intros; apply getValue_fst | done].
Qed.

(** X4. On a cloud without points [getBounds] raises [ValueError]: there is
    no smallest longitude to return. *)
Theorem getBounds_empty self lon lat data :
  is_cloud self lon lat data → flat lon = [] →
  getBounds self = (self, Raise ValueError).
Proof.
  intros (-> & _) Hlon. unfold getBounds.
  rewrite (bind_getattr "_lon" _ _ lon) by apply instance_lon.
  unfold nd_min. by rewrite Hlon.
Qed.

(** *** [trim] *)

Lemma is_cloud_masked self lon lat data f :
  is_cloud self lon lat data → length f = length (flat lon) →
  is_cloud (instance (masked f lon) (masked f lat) (masked f data))
    (masked f lon) (masked f lat) (masked f data).
Proof.
  intros Hc Hf. destruct (is_cloud_lengths _ _ _ _ Hc) as [Hlat Hdata].
  repeat split; try done; apply masked_wf; congruence.
Qed.

Lemma box_mask_masked xmin xmax ymin ymax f lon lat :
  length (flat lat) = length (flat lon) →
  box_mask xmin xmax ymin ymax (masked f lon) (masked f lat) =
    compress f (box_mask xmin xmax ymin ymax lon lat).
Proof. intros Hlen. unfold box_mask. simpl. by rewrite compress_zip_with. Qed.

(** Two trims in a row select with the flags of both boxes. *)
Lemma trim_trim self lon lat data x0 x1 y0 y1 x0' x1' y0' y1' :
  is_cloud self lon lat data →
  let f := zip_with andb (box_mask x0 x1 y0 y1 lon lat) (box_mask x0' x1' y0' y1' lon lat) in
  trim [x0'; x1'; y0'; y1'] (trim [x0; x1; y0; y1] self).1 =
    (instance (masked f lon) (masked f lat) (masked f data), Ok ()).
Proof.
  intros Hc f. destruct (is_cloud_lengths _ _ _ _ Hc) as [Hlat Hdata].
  pose proof (box_mask_length x0 x1 y0 y1 lon lat (eq_sym Hlat)) as Hlen.
  pose proof (box_mask_length x0' x1' y0' y1' lon lat (eq_sym Hlat)) as Hlen'.
  rewrite (trim_cloud _ _ _ _ x0 x1 y0 y1 Hc). simpl.
  rewrite (trim_cloud _ _ _ _ x0' x1' y0' y1' (is_cloud_masked _ _ _ _ _ Hc Hlen)).
  rewrite box_mask_masked by done.
  unfold masked at 1 3 5. simpl.
  rewrite !compress_compress, count_true_compress by congruence. done.
Qed.

(** X5. [trim] reads [bounds[0]] to [bounds[3]] and nothing else of its
    argument: with fewer than four bounds it raises [IndexError] and the
    cloud is as before; what follows the fourth bound is ignored. *)
Theorem trim_bounds_length self lon lat data :
  is_cloud self lon lat data →
  (∀ bounds, length bounds < 4 → trim bounds self = (self, Raise IndexError)) ∧
  (∀ xmin xmax ymin ymax rest,
     trim (xmin :: xmax :: ymin :: ymax :: rest) self = trim [xmin; xmax; ymin; ymax] self).
Proof.
  intros Hc. split.
  - intros bounds Hlen. apply trim_short; [|done]. by eapply is_cloud_same_shape.
  - intros xmin xmax ymin ymax rest.
    by rewrite (trim_cloud_bounds _ _ _ _ _ _ _ _ rest Hc), (trim_cloud _ _ _ _ _ _ _ _ Hc).
Qed.

(** X6. Trimming a second time to the same box changes nothing. *)
Theorem trim_idempotent self lon lat data xmin xmax ymin ymax :
  is_cloud self lon lat data →
  trim [xmin; xmax; ymin; ymax] (trim [xmin; xmax; ymin; ymax] self).1 =
    ((trim [xmin; xmax; ymin; ymax] self).1, Ok ()).
Proof.
  intros Hc. rewrite (trim_trim _ _ _ _ _ _ _ _ _ _ _ _ Hc). cbv zeta.
  rewrite zip_with_andb_diag. by rewrite (trim_cloud _ _ _ _ _ _ _ _ Hc).
Qed.

(** X7. Two trims to two boxes give the same cloud in either order, and
    its points are the points of the first cloud that pass both tests. *)
Theorem trim_commute self lon lat data x0 x1 y0 y1 x0' x1' y0' y1' :
  is_cloud self lon lat data →
  ∃ lon' lat' data',
    trim [x0'; x1'; y0'; y1'] (trim [x0; x1; y0; y1] self).1 =
      (instance lon' lat' data', Ok ()) ∧
    trim [x0; x1; y0; y1] (trim [x0'; x1'; y0'; y1'] self).1 =
      (instance lon' lat' data', Ok ()) ∧
    points lon' lat' data' =
      filter (λ p, inside x0 x1 y0 y1 p && inside x0' x1' y0' y1' p)
        (points lon lat data).
Proof.
  intros Hc. destruct (is_cloud_lengths _ _ _ _ Hc) as [Hlat Hdata].
  eexists _, _, _. split; [by apply trim_trim|]. split.
  - rewrite (trim_trim _ _ _ _ _ _ _ _ _ _ _ _ Hc). cbv zeta.
    by rewrite zip_with_andb_comm.
  - rewrite points_masked by done.
    rewrite !(box_mask_points _ _ _ _ _ _ data) by done.
    rewrite <- compress_fmap. f_equal.
    generalize (points lon lat data). intros ps.
    induction ps as [|p ps IH]; [done|].
    rewrite !fmap_cons. cbn [zip_with]. by rewrite IH.
Qed.

(** X8. After [trim] the three arrays are one-dimensional, whatever their
    shape was, and their length is the number of points that pass the test:
    never more points than before. *)
Theorem trim_shapes_count self lon lat data xmin xmax ymin ymax :
  is_cloud self lon lat data →
  ∃ lon' lat' data' n,
    trim [xmin; xmax; ymin; ymax] self = (instance lon' lat' data', Ok ()) ∧
    shape lon' = [n] ∧ shape lat' = [n] ∧ shape data' = [n] ∧
    n = length (filter (λ p, inside xmin xmax ymin ymax p) (points lon lat data)) ∧
    n = length (points lon' lat' data') ∧
    (n ≤ length (points lon lat data))%nat.
Proof.
  intros Hc. destruct (is_cloud_lengths _ _ _ _ Hc) as [Hlat Hdata].
  eexists _, _, _, _. split; [by apply trim_cloud|]. simpl.
  rewrite points_masked by done.
  rewrite (box_mask_points _ _ _ _ _ _ data) by done.
  rewrite compress_fmap, count_true_fmap. repeat split. apply length_filter.
Qed.

(** *** [trim] and [getBounds] *)

Lemma sc_le_lt_trans (x y z : T) : sc_lt y x = false → sc_lt y z = true → sc_lt x z = true.
Proof.
  intros Hyx Hyz. destruct (sc_lt x z) eqn:Hxz; [done|].
  destruct (sc_lt x y) eqn:Hxy.
  - by rewrite (sc_lt_trans x y z) in Hxz.
  - by rewrite (sc_lt_total x y), Hyz in Hxz.
Qed.

Lemma filter_all {A} (h : A → bool) (xs : list A) :
  (∀ x, x ∈ xs → h x = true) → filter h xs = xs.
Proof.
  induction xs as [|x xs IH]; intros Hall; [done|].
  rewrite filter_cons_True by (apply Is_true_true, Hall; set_solver).
  rewrite IH; [done|]. intros y Hy. apply Hall. set_solver.
Qed.

Lemma filter_none {A} (h : A → bool) (xs : list A) :
  (∀ x, x ∈ xs → h x = false) → filter h xs = [].
Proof.
  induction xs as [|x xs IH]; intros Hnone; [done|].
  rewrite filter_cons_False by (apply Is_true_false, Hnone; set_solver).
  apply IH. intros y Hy. apply Hnone. set_solver.
Qed.

Lemma points_length lon lat data :
  length (flat lat) = length (flat lon) → length (flat data) = length (flat lon) →
  length (points lon lat data) = length (flat lon).
Proof. intros Hlat Hdata. unfold points. rewrite !length_zip. lia. Qed.

(** The longitudes and the latitudes of a cloud are those of its points. *)
Lemma points_lon lon lat data x :
  length (flat lat) = length (flat lon) → length (flat data) = length (flat lon) →
  x ∈ flat lon ↔ ∃ p, p ∈ points lon lat data ∧ p.1.1 = x.
Proof.
  intros Hlat Hdata.
  assert ((points lon lat data).*1.*1 = flat lon) as <-.
  { unfold points. rewrite !fst_zip; [done | lia | rewrite length_zip; lia]. }
  rewrite list_elem_of_fmap. split.
  - intros (q & -> & (p & -> & Hp)%list_elem_of_fmap). eauto.
  - intros (p & Hp & <-). exists p.1. split; [done|]. by apply list_elem_of_fmap_2.
Qed.

Lemma points_lat lon lat data y :
  length (flat lat) = length (flat lon) → length (flat data) = length (flat lon) →
  y ∈ flat lat ↔ ∃ p, p ∈ points lon lat data ∧ p.1.2 = y.
Proof.
  intros Hlat Hdata.
  assert ((points lon lat data).*1.*2 = flat lat) as <-.
  { unfold points. rewrite fst_zip, snd_zip; [done | lia | rewrite length_zip; lia]. }
  rewrite list_elem_of_fmap. split.
  - intros (q & -> & (p & -> & Hp)%list_elem_of_fmap). eauto.
  - intros (p & Hp & <-). exists p.1. split; [done|]. by apply list_elem_of_fmap_2.
Qed.

(** The bounds of a cloud that has a point. *)
Lemma getBounds_cloud self lon lat data :
  is_cloud self lon lat data → flat lon ≠ [] →
  ∃ x0 x1 y0 y1,
    getBounds self = (self, Ok (x0, x1, y0, y1)) ∧
    is_min x0 (flat lon) ∧ is_max x1 (flat lon) ∧
    is_min y0 (flat lat) ∧ is_max y1 (flat lat).
Proof.
  intros Hc Hlon. destruct (is_cloud_lengths _ _ _ _ Hc) as [Hlen _].
  assert (flat lat ≠ []) as Hlat.
  { intros E. rewrite E in Hlen. by destruct (flat lon). }
  destruct Hc as (-> & _).
  destruct (nd_min_is_min lon Hlon) as (x0 & Ex0 & Hx0).
  destruct (nd_max_is_max lon Hlon) as (x1 & Ex1 & Hx1).
  destruct (nd_min_is_min lat Hlat) as (y0 & Ey0 & Hy0).
  destruct (nd_max_is_max lat Hlat) as (y1 & Ey1 & Hy1).
  exists x0, x1, y0, y1. split; [|done]. unfold getBounds.
  rewrite (bind_getattr "_lon" _ _ lon) by apply instance_lon.
  rewrite Ex0, bind_lift_Ok.
  rewrite (bind_getattr "_lon" _ _ lon) by apply instance_lon.
  rewrite Ex1, bind_lift_Ok.
  rewrite (bind_getattr "_lat" _ _ lat) by apply instance_lat.
  rewrite Ey0, bind_lift_Ok.
  rewrite (bind_getattr "_lat" _ _ lat) by apply instance_lat.
  by rewrite Ey1, bind_lift_Ok.
Qed.

(** When [getBounds] returns on a cloud, the cloud has a point and the
    four numbers are its extreme coordinates. *)
Lemma getBounds_Ok self lon lat data x0 x1 y0 y1 :
  is_cloud self lon lat data → getBounds self = (self, Ok (x0, x1, y0, y1)) →
  is_min x0 (flat lon) ∧ is_max x1 (flat lon) ∧
  is_min y0 (flat lat) ∧ is_max y1 (flat lat).
Proof.
  intros Hc Hb. destruct (decide (flat lon = [])) as [Hlon|Hlon].
  - destruct Hc as (-> & _). revert Hb. unfold getBounds.
    rewrite (bind_getattr "_lon" _ _ lon) by apply instance_lon.
    unfold nd_min. by rewrite Hlon.
  - destruct (getBounds_cloud _ _ _ _ Hc Hlon) as (? & ? & ? & ? & Hb' & Hm).
    rewrite Hb in Hb'. by injection Hb' as <- <- <- <-.
Qed.

Lemma inside_true xmin xmax ymin ymax (p : T * T * T) :
  inside xmin xmax ymin ymax p = true ↔
  sc_lt xmin p.1.1 = true ∧ sc_lt p.1.1 xmax = true ∧
  sc_lt ymin p.1.2 = true ∧ sc_lt p.1.2 ymax = true.
Proof.
  unfold inside. rewrite !andb_true_iff.
  split; [intros [[[? ?] ?] ?] | intros (? & ? & ? & ?)]; auto.
Qed.

(** X9. When a point passes the test, [getBounds] after [trim] returns
    bounds that lie strictly inside the box, the minima below the maxima:
    [xmin < x0 ≤ x1 < xmax] and [ymin < y0 ≤ y1 < ymax]. *)
Theorem trim_getBounds_inside self lon lat data xmin xmax ymin ymax p :
  is_cloud self lon lat data →
  p ∈ points lon lat data → inside xmin xmax ymin ymax p = true →
  ∃ x0 x1 y0 y1,
    getBounds (trim [xmin; xmax; ymin; ymax] self).1 =
      ((trim [xmin; xmax; ymin; ymax] self).1, Ok (x0, x1, y0, y1)) ∧
    sc_lt xmin x0 = true ∧ sc_lt x1 x0 = false ∧ sc_lt x1 xmax = true ∧
    sc_lt ymin y0 = true ∧ sc_lt y1 y0 = false ∧ sc_lt y1 ymax = true.
Proof.
  intros Hc Hp Hin.
  destruct (trim_filter _ _ _ _ xmin xmax ymin ymax Hc)
    as (lon' & lat' & data' & -> & Hc' & Hpts). simpl.
  destruct (is_cloud_lengths _ _ _ _ Hc') as [Hlat' Hdata'].
  assert (p ∈ points lon' lat' data') as Hp'.
  { rewrite Hpts. apply list_elem_of_filter. split; [by rewrite Hin | done]. }
  assert (∀ q, q ∈ points lon' lat' data' → inside xmin xmax ymin ymax q = true) as Hall.
  { intros q. rewrite Hpts. intros [Hq _]%list_elem_of_filter. by apply Is_true_true. }
  assert (flat lon' ≠ []) as Hne.
  { intros E. pose proof (points_length lon' lat' data' Hlat' Hdata') as Hl.
    rewrite E in Hl. destruct (points lon' lat' data'); [set_solver | done]. }
  destruct (getBounds_cloud _ _ _ _ Hc' Hne)
    as (x0 & x1 & y0 & y1 & -> & [Hx0 Hx0le] & [Hx1 _] & [Hy0 Hy0le] & [Hy1 _]).
  exists x0, x1, y0, y1. split; [done|].
  apply (points_lon lon' lat' data') in Hx0 as (q0 & Hq0%Hall%inside_true & <-); [|done..].
  apply (points_lon lon' lat' data') in Hx1 as (q1 & ? & <-); [|done..].
  apply (points_lat lon' lat' data') in Hy0 as (r0 & Hr0%Hall%inside_true & <-); [|done..].
  apply (points_lat lon' lat' data') in Hy1 as (r1 & ? & <-); [|done..].
  assert (inside xmin xmax ymin ymax q1 = true) as Hq1%inside_true by auto.
  assert (inside xmin xmax ymin ymax r1 = true) as Hr1%inside_true by auto.
  destruct Hq0 as (? & _), Hq1 as (_ & ? & _), Hr0 as (_ & _ & ? & _), Hr1 as (_ & _ & _ & ?).
  repeat split; try done.
  - apply Hx0le. apply (points_lon lon' lat' data'); eauto.
  - apply Hy0le. apply (points_lat lon' lat' data'); eauto.
Qed.

(** X10. Trimming a cloud to its own bounds, [c.trim(c.getBounds())],
    loses points: the points that reach the bounds lie on the boundary of
    the box, so the trimmed cloud has fewer points than the cloud had. *)
Theorem trim_own_bounds self lon lat data x0 x1 y0 y1 :
  is_cloud self lon lat data →
  getBounds self = (self, Ok (x0, x1, y0, y1)) →
  ∃ lon' lat' data',
    trim [x0; x1; y0; y1] self = (instance lon' lat' data', Ok ()) ∧
    length (points lon' lat' data') < length (points lon lat data).
Proof.
  intros Hc Hb. destruct (is_cloud_lengths _ _ _ _ Hc) as [Hlat Hdata].
  destruct (getBounds_Ok _ _ _ _ _ _ _ _ Hc Hb) as ([Hx0 _] & _).
  apply (points_lon lon lat data) in Hx0 as (p & Hp & Hpx); [|done..].
  destruct (trim_filter _ _ _ _ x0 x1 y0 y1 Hc)
    as (lon' & lat' & data' & Htrim & _ & Hpts).
  exists lon', lat', data'. split; [done|]. rewrite Hpts.
  apply (length_filter_lt _ _ p); [done|].
  rewrite (inside_not_on_boundary x0 x1 y0 y1 p); [by intros []|]. by left.
Qed.

(** X11. A box that lies strictly around the bounds of a cloud keeps
    every point: [trim] to it returns the same points, in the same order. *)
Theorem trim_enclosing_box self lon lat data x0 x1 y0 y1 xmin xmax ymin ymax :
  is_cloud self lon lat data →
  getBounds self = (self, Ok (x0, x1, y0, y1)) →
  sc_lt xmin x0 = true → sc_lt x1 xmax = true →
  sc_lt ymin y0 = true → sc_lt y1 ymax = true →
  ∃ lon' lat' data',
    trim [xmin; xmax; ymin; ymax] self = (instance lon' lat' data', Ok ()) ∧
    points lon' lat' data' = points lon lat data.
Proof.
  intros Hc Hb Hxmin Hxmax Hymin Hymax.
  destruct (is_cloud_lengths _ _ _ _ Hc) as [Hlat Hdata].
  destruct (getBounds_Ok _ _ _ _ _ _ _ _ Hc Hb)
    as ([_ Hx0] & [_ Hx1] & [_ Hy0] & [_ Hy1]).
  destruct (trim_filter _ _ _ _ xmin xmax ymin ymax Hc)
    as (lon' & lat' & data' & Htrim & _ & Hpts).
  exists lon', lat', data'. split; [done|]. rewrite Hpts.
  apply filter_all. intros p Hp. apply inside_true.
  assert (p.1.1 ∈ flat lon) as Hlon by (apply (points_lon lon lat data); eauto).
  assert (p.1.2 ∈ flat lat) as Hplat by (apply (points_lat lon lat data); eauto).
  repeat split.
  - apply sc_lt_le_trans with x0; auto.
  - apply sc_le_lt_trans with x1; auto.
  - apply sc_lt_le_trans with y0; auto.
  - apply sc_le_lt_trans with y1; auto.
Qed.

(** X12. A box with [xmin ≥ xmax] or [ymin ≥ ymax] has no inside: [trim] to
    it removes every point, and [getBounds] raises [ValueError] on what is
    left. *)
Theorem trim_empty_box self lon lat data xmin xmax ymin ymax :
  is_cloud self lon lat data →
  sc_lt xmin xmax = false ∨ sc_lt ymin ymax = false →
  ∃ lon' lat' data',
    trim [xmin; xmax; ymin; ymax] self = (instance lon' lat' data', Ok ()) ∧
    points lon' lat' data' = [] ∧
    shape lon' = [0] ∧ shape lat' = [0] ∧ shape data' = [0] ∧
    getBounds (instance lon' lat' data') = (instance lon' lat' data', Raise ValueError).
Proof.
  intros Hc Hbox. destruct (is_cloud_lengths _ _ _ _ Hc) as [Hlat Hdata].
  pose proof (box_mask_length xmin xmax ymin ymax lon lat (eq_sym Hlat)) as Hlen.
  assert (filter (λ p, inside xmin xmax ymin ymax p) (points lon lat data) = []) as Hnone.
  { apply filter_none. intros p _.
    destruct (inside xmin xmax ymin ymax p) eqn:Hin; [|done].
    apply inside_true in Hin as (Ha & Hb & Hc' & Hd).
    destruct Hbox as [Hbox|Hbox].
    - by rewrite (sc_lt_trans _ _ _ Ha Hb) in Hbox.
    - by rewrite (sc_lt_trans _ _ _ Hc' Hd) in Hbox. }
  assert (count_true (box_mask xmin xmax ymin ymax lon lat) = 0) as Hcount.
  { rewrite (box_mask_points _ _ _ _ _ _ data) by done.
    by rewrite count_true_fmap, Hnone. }
  eexists _, _, _. split; [by apply trim_cloud|].
  rewrite points_masked by done.
  rewrite (box_mask_points _ _ _ _ _ _ data) at 1 by done.
  rewrite compress_fmap. split; [done|]. simpl. rewrite Hcount. repeat split.
  unfold getBounds.
  rewrite (bind_getattr "_lon" _ _ _ (instance_lon _ _ _)).
  unfold nd_min.
  assert (flat (masked (box_mask xmin xmax ymin ymax lon lat) lon) = []) as ->; [|done].
  apply length_zero_iff_nil. simpl. rewrite compress_length by done. done.
Qed.

(** X13. [trim] changes the shape [setData] asks for: once a point has been
    removed, the value array the cloud held before the call is turned down
    with [DataSetException]. *)
Theorem trim_then_setData self lon lat data xmin xmax ymin ymax p :
  is_cloud self lon lat data →
  p ∈ points lon lat data → inside xmin xmax ymin ymax p = false →
  ∃ msg, setData (PyArray data) (trim [xmin; xmax; ymin; ymax] self).1 =
           ((trim [xmin; xmax; ymin; ymax] self).1, Raise (DataSetException msg)).
Proof.
  intros Hc Hp Hout. destruct (is_cloud_lengths _ _ _ _ Hc) as [Hlat Hdata].
  rewrite (trim_cloud _ _ _ _ _ _ _ _ Hc). simpl.
  rewrite setData_array. rewrite decide_True; [by eexists|].
  simpl. intros Hshape.
  assert (length (filter (λ q, inside xmin xmax ymin ymax q) (points lon lat data))
          < length (points lon lat data)) as Hlt.
  { apply (length_filter_lt _ _ p); [done|]. rewrite Hout. by intros []. }
  rewrite <- count_true_fmap, <- (box_mask_points _ _ _ _ lon lat data) in Hlt by done.
  rewrite points_length in Hlt by done.
  destruct Hc as (_ & _ & _ & _ & _ & Hwf). unfold wf in Hwf.
  rewrite Hshape in Hwf. simpl in Hwf. lia.
Qed.

(** *** [setData] and [getBounds] *)

Lemma setData_Raise o self e :
  (setData o self).2 = Raise e → (setData o self).1 = self.
Proof.
  destruct o as [d| | | |]; try done.
  unfold setData. simpl with_shape. rewrite bind_lift_Ok.
  unfold mbind, method_bind, getattr.
  destruct (self !! "_lon") as [lon|]; [|done].
  by case_decide.
Qed.

(** [getBounds] looks at the two coordinate attributes only. *)
Lemma getBounds_reads_coordinates self self' :
  self !! "_lon" = self' !! "_lon" → self !! "_lat" = self' !! "_lat" →
  (getBounds self).2 = (getBounds self').2.
Proof.
  intros Hlon Hlat. unfold getBounds.
  destruct (self !! "_lon") as [lon|] eqn:Elon.
  2: { by rewrite !bind_getattr_missing by congruence. }
  rewrite !(bind_getattr "_lon" _ _ lon) by congruence.
  destruct (nd_min lon) as [x0|]; [rewrite !bind_lift_Ok | done].
  rewrite !(bind_getattr "_lon" _ _ lon) by congruence.
  destruct (nd_max lon) as [x1|]; [rewrite !bind_lift_Ok | done].
  destruct (self !! "_lat") as [lat|] eqn:Elat.
  2: { by rewrite !bind_getattr_missing by congruence. }
  rewrite !(bind_getattr "_lat" _ _ lat) by congruence.
  destruct (nd_min lat) as [y0|]; [rewrite !bind_lift_Ok | done].
  rewrite !(bind_getattr "_lat" _ _ lat) by congruence.
  by destruct (nd_max lat).
Qed.

(** [setData] assigns to [_data] and to nothing else. *)
Lemma setData_frame o self name :
  name ≠ "_data" → (setData o self).1 !! name = self !! name.
Proof.
  intros Hname. destruct o as [d| | | |]; try done.
  unfold setData. simpl with_shape. rewrite bind_lift_Ok.
  unfold mbind, method_bind, getattr.
  destruct (self !! "_lon") as [lon|]; [|done].
  case_decide; [done|]. unfold setattr. simpl. by rewrite lookup_insert_ne.
Qed.

(** X16. [setData] never moves the bounds: whatever the object and the
    argument, and whether [setData] returns or raises, [getBounds] gives
    afterwards what it gave before. *)
Theorem setData_keeps_bounds o self :
  (getBounds (setData o self).1).2 = (getBounds self).2.
Proof. apply getBounds_reads_coordinates; by rewrite setData_frame. Qed.

(** *** [trim] and [getData] *)

Lemma points_data lon lat data :
  length (flat lat) = length (flat lon) → length (flat data) = length (flat lon) →
  (points lon lat data).*2 = flat data.
Proof.
  intros Hlat Hdata. unfold points. rewrite snd_zip; [done|].
  rewrite length_zip. lia.
Qed.

(** X17. After [trim], [getData] returns a one-dimensional array with the
    values of the points that pass the test, in their order. *)
Theorem trim_getData self lon lat data xmin xmax ymin ymax :
  is_cloud self lon lat data →
  ∃ d, getData (trim [xmin; xmax; ymin; ymax] self).1 =
         ((trim [xmin; xmax; ymin; ymax] self).1, Ok d) ∧
       shape d = [length (flat d)] ∧
       flat d = (filter (λ p, inside xmin xmax ymin ymax p) (points lon lat data)).*2.
Proof.
  intros Hc.
  destruct (trim_filter _ _ _ _ xmin xmax ymin ymax Hc)
    as (lon' & lat' & data' & Htrim & Hc' & Hpts).
  destruct (is_cloud_lengths _ _ _ _ Hc') as [Hlat' Hdata'].
  rewrite Htrim. simpl. exists data'. unfold getData, getattr.
  rewrite instance_data. split; [done|].
  rewrite <- Hpts, points_data by done. split; [|done].
  rewrite (trim_cloud _ _ _ _ _ _ _ _ Hc) in Htrim.
  apply (f_equal fst) in Htrim. simpl in Htrim.
  apply instance_inj in Htrim as (_ & _ & <-).
  destruct (is_cloud_lengths _ _ _ _ Hc) as [Hlat Hdata].
  simpl. rewrite compress_length; [done|].
  rewrite box_mask_length; congruence.
Qed.

(** *** The constructor *)

(** X18. The constructor returns an object exactly from three arrays of
    one shape, and the object is then the instance that holds them. *)
Theorem Cloud_returns_iff o1 o2 o3 self :
  Cloud o1 o2 o3 = Ok self ↔
  ∃ lon lat data,
    o1 = PyArray lon ∧ o2 = PyArray lat ∧ o3 = PyArray data ∧
    shape lon = shape lat ∧ shape lat = shape data ∧
    self = instance lon lat data.
Proof.
  split.
  - intros (lon & lat & data & -> & -> & -> & -> & Hs1 & Hs2 & Hs3)%Cloud_Ok.
    by exists lon, lat, data.
  - intros (lon & lat & data & -> & -> & -> & Hs1 & Hs2 & ->).
    rewrite Cloud_arrays.
    rewrite decide_False by (by intros []).
    rewrite decide_False; [done|]. intros [[]|[]]; congruence.
Qed.

(** *** [getValue] on an object that has the attributes it reads *)


(** *** After any calls *)

Lemma run_same_shape (calls : list (call T GeoDict)) self :
  same_shape self → same_shape (run geodetic_distance calls self).
Proof.
  revert self. unfold run.
  induction calls as [|c calls IH]; intros self Hsame; [done|].
  simpl. apply IH. by apply exec_same_shape.
Qed.

Lemma Cloud_same_shape o1 o2 o3 self : Cloud o1 o2 o3 = Ok self → same_shape self.
Proof.
  intros (lon & lat & data & _ & _ & _ & -> & Hs)%Cloud_Ok. by eexists _, _, _.
Qed.

(** X14. No call ever gives a constructed [Cloud] the attributes
    [getValue] reads: after any sequence of calls the nearest-neighbour
    lookup still raises [AttributeError] and returns no value. *)
Theorem getValue_never_returns o1 o2 o3 self (calls : list (call T GeoDict)) (lat0 lon0 : T) :
  Cloud o1 o2 o3 = Ok self →
  getValue geodetic_distance lat0 lon0 "nearest" (run geodetic_distance calls self) =
    (run geodetic_distance calls self, Raise (AttributeError "_lons")).
Proof.
  intros Hc%Cloud_same_shape.
  destruct (run_same_shape calls _ Hc) as (lon & lat & data & -> & _).
  unfold getValue. rewrite decide_True by done.
  by rewrite bind_getattr_missing by (by apply instance_other).
Qed.

(** X15. On a constructed [Cloud], after any sequence of calls, a call that
    raises changes nothing: every method either returns or leaves the
    object as it was. *)
Theorem raising_call_keeps_cloud o1 o2 o3 self
    (calls : list (call T GeoDict)) (c : call T GeoDict) :
  Cloud o1 o2 o3 = Ok self →
  raised geodetic_distance c (run geodetic_distance calls self) ≠ None →
  exec geodetic_distance c (run geodetic_distance calls self) =
    run geodetic_distance calls self.
Proof.
  intros Hc%Cloud_same_shape. apply (run_same_shape calls) in Hc.
  revert Hc. generalize (run geodetic_distance calls self). clear self.
  intros self Hsame Hraised.
  destruct c as [|o| |bounds|lat0 lon0 m|g m]; simpl in *.
  - apply getData_fst.
  - destruct (setData o self).2 eqn:Hr; [done|]. by eapply setData_Raise.
  - apply getBounds_fst.
  - destruct (decide (length bounds < 4)) as [Hlen|Hlen].
    + by rewrite trim_short.
    + destruct bounds as [|xmin [|xmax [|ymin [|ymax rest]]]]; simpl in Hlen; try lia.
      destruct (trim_shapes _ xmin xmax ymin ymax rest Hsame) as (n & xs & ys & ds & E).
      by rewrite E in Hraised.
  - apply getValue_fst.
  - done.
Qed.

End CloudMore.

(** ** Further runs on the sample clouds *)

(** The two-by-two sample is a cloud; trimmed, it is one-dimensional. *)
Lemma sample2_is_cloud : is_cloud Sample.cloud2 Sample.lon2 Sample.lat2 Sample.data2.
Proof. by repeat split. Qed.

Example sample2_trim :
  trim [1; 7; 0; 100]%Z Sample.cloud2 =
    (instance (array1 [5; 3]%Z) (array1 [20; 30]%Z) (array1 [200; 300]%Z), Ok ()).
Proof. by rewrite (trim_cloud _ _ _ _ _ _ _ _ sample2_is_cloud). Qed.

(** Coordinates of different shapes and a value that is no array. *)
Lemma Cloud_arguments_sample :
  (∃ msg, Cloud (PyArray Sample.lon) (PyArray Sample.data5) (@PyNone Z) =
            Raise (DataSetException msg)) ∧
  Cloud (PyArray Sample.lon) (PyArray Sample.lat) (@PyNone Z) =
    Raise (AttributeError "shape").
Proof.
  destruct (Cloud_arguments_no_array
              (PyArray Sample.lon) (PyArray Sample.data5) (@PyNone Z))
    as (_ & _ & Hdiff & _).
  destruct (Cloud_arguments_no_array
              (PyArray Sample.lon) (PyArray Sample.lat) (@PyNone Z))
    as (_ & _ & _ & Hsame).
  split.
  - by apply (Hdiff Sample.lon Sample.data5).
  - by apply (Hsame Sample.lon Sample.lat).
Defined.

(** New values for the sample cloud, read back. *)
Lemma setData_getData_sample :
  (setData (PyArray Sample.lat) Sample.cloud).2 = Ok () ∧
  ∃ d, PyArray Sample.lat = PyArray d ∧
       getData (setData (PyArray Sample.lat) Sample.cloud).1 =
         ((setData (PyArray Sample.lat) Sample.cloud).1, Ok d) ∧
       ∀ name, name ≠ "_data" →
         (setData (PyArray Sample.lat) Sample.cloud).1 !! name = Sample.cloud !! name.
Proof.
  split; [reflexivity|].
  apply (setData_getData (PyArray Sample.lat) Sample.cloud). reflexivity.
Defined.

(** The bounds of the cloud without points. *)
Lemma getBounds_empty_sample :
  is_cloud Sample.empty Sample.none Sample.none Sample.none ∧
  getBounds Sample.empty = (Sample.empty, Raise ValueError).
Proof.
  split; [by repeat split|].
  apply (getBounds_empty Sample.empty Sample.none Sample.none Sample.none);
    [by repeat split | reflexivity].
Defined.

(** Three bounds, and five. *)
Lemma trim_bounds_length_sample :
  is_cloud Sample.cloud Sample.lon Sample.lat Sample.data ∧
  trim [1; 7; 0]%Z Sample.cloud = (Sample.cloud, Raise IndexError) ∧
  trim [1; 7; 0; 100; 9]%Z Sample.cloud = trim [1; 7; 0; 100]%Z Sample.cloud.
Proof.
  assert (is_cloud Sample.cloud Sample.lon Sample.lat Sample.data) as Hc
    by (by repeat split).
  destruct (trim_bounds_length Sample.cloud Sample.lon Sample.lat Sample.data Hc)
    as [Hshort Hlong].
  split; [exact Hc|]. split.
  - apply (Hshort [1; 7; 0]%Z). simpl. lia.
  - apply (Hlong 1 7 0 100 [9])%Z.
Defined.

Lemma trim_idempotent_sample :
  is_cloud Sample.cloud Sample.lon Sample.lat Sample.data ∧
  trim [1; 7; 0; 100]%Z (trim [1; 7; 0; 100]%Z Sample.cloud).1 =
    ((trim [1; 7; 0; 100]%Z Sample.cloud).1, Ok ()).
Proof.
  split; [by repeat split|].
  apply (trim_idempotent Sample.cloud Sample.lon Sample.lat Sample.data).
  by repeat split.
Defined.

Lemma trim_commute_sample :
  is_cloud Sample.cloud Sample.lon Sample.lat Sample.data ∧
  ∃ lon' lat' data',
    trim [0; 6; 15; 100]%Z (trim [1; 7; 0; 100]%Z Sample.cloud).1 =
      (instance lon' lat' data', Ok ()) ∧
    trim [1; 7; 0; 100]%Z (trim [0; 6; 15; 100]%Z Sample.cloud).1 =
      (instance lon' lat' data', Ok ()) ∧
    points lon' lat' data' =
      filter (λ p, inside 1%Z 7%Z 0%Z 100%Z p && inside 0%Z 6%Z 15%Z 100%Z p)
        (points Sample.lon Sample.lat Sample.data).
Proof.
  split; [by repeat split|].
  apply (trim_commute Sample.cloud Sample.lon Sample.lat Sample.data).
  by repeat split.
Defined.

(** The two-by-two sample comes out of [trim] with shape [(2,)]. *)
Lemma trim_shapes_count_sample :
  is_cloud Sample.cloud2 Sample.lon2 Sample.lat2 Sample.data2 ∧
  ∃ lon' lat' data' n,
    trim [1; 7; 0; 100]%Z Sample.cloud2 = (instance lon' lat' data', Ok ()) ∧
    shape lon' = [n] ∧ shape lat' = [n] ∧ shape data' = [n] ∧
    n = length (filter (λ p, inside 1%Z 7%Z 0%Z 100%Z p)
                  (points Sample.lon2 Sample.lat2 Sample.data2)) ∧
    n = length (points lon' lat' data') ∧
    (n ≤ length (points Sample.lon2 Sample.lat2 Sample.data2))%nat.
Proof.
  split; [by repeat split|].
  apply (trim_shapes_count Sample.cloud2 Sample.lon2 Sample.lat2 Sample.data2).
  by repeat split.
Defined.

Lemma trim_getBounds_sample :
  is_cloud Sample.cloud Sample.lon Sample.lat Sample.data ∧
  ∃ x0 x1 y0 y1,
    getBounds (trim [1; 7; 0; 100]%Z Sample.cloud).1 =
      ((trim [1; 7; 0; 100]%Z Sample.cloud).1, Ok (x0, x1, y0, y1)) ∧
    sc_lt 1%Z x0 = true ∧ sc_lt x1 x0 = false ∧ sc_lt x1 7%Z = true ∧
    sc_lt 0%Z y0 = true ∧ sc_lt y1 y0 = false ∧ sc_lt y1 100%Z = true.
Proof.
  split; [by repeat split|].
  apply (trim_getBounds_inside Sample.cloud Sample.lon Sample.lat Sample.data
           1 7 0 100 (5, 20, 200))%Z.
  - by repeat split.
  - apply list_elem_of_lookup_2 with 1. reflexivity.
  - reflexivity.
Defined.

Lemma trim_own_bounds_sample :
  getBounds Sample.cloud = (Sample.cloud, Ok (1, 7, 10, 40)%Z) ∧
  ∃ lon' lat' data',
    trim [1; 7; 10; 40]%Z Sample.cloud = (instance lon' lat' data', Ok ()) ∧
    length (points lon' lat' data') < length (points Sample.lon Sample.lat Sample.data).
Proof.
  split; [reflexivity|].
  apply (trim_own_bounds Sample.cloud Sample.lon Sample.lat Sample.data);
    [by repeat split | reflexivity].
Defined.

Lemma trim_enclosing_box_sample :
  getBounds Sample.cloud = (Sample.cloud, Ok (1, 7, 10, 40)%Z) ∧
  ∃ lon' lat' data',
    trim [0; 8; 5; 45]%Z Sample.cloud = (instance lon' lat' data', Ok ()) ∧
    points lon' lat' data' = points Sample.lon Sample.lat Sample.data.
Proof.
  split; [reflexivity|].
  apply (trim_enclosing_box Sample.cloud Sample.lon Sample.lat Sample.data
           1 7 10 40 0 8 5 45)%Z; try reflexivity.
  by repeat split.
Defined.

Lemma trim_empty_box_sample :
  is_cloud Sample.cloud Sample.lon Sample.lat Sample.data ∧
  ∃ lon' lat' data',
    trim [7; 1; 0; 100]%Z Sample.cloud = (instance lon' lat' data', Ok ()) ∧
    points lon' lat' data' = [] ∧
    shape lon' = [0] ∧ shape lat' = [0] ∧ shape data' = [0] ∧
    getBounds (instance lon' lat' data') = (instance lon' lat' data', Raise ValueError).
Proof.
  split; [by repeat split|].
  apply (trim_empty_box Sample.cloud Sample.lon Sample.lat Sample.data);
    [by repeat split | by left].
Defined.

Lemma trim_then_setData_sample :
  is_cloud Sample.cloud Sample.lon Sample.lat Sample.data ∧
  ∃ msg, setData (PyArray Sample.data) (trim [1; 7; 0; 100]%Z Sample.cloud).1 =
           ((trim [1; 7; 0; 100]%Z Sample.cloud).1, Raise (DataSetException msg)).
Proof.
  split; [by repeat split|].
  apply (trim_then_setData Sample.cloud Sample.lon Sample.lat Sample.data
           1 7 0 100 (1, 10, 100))%Z.
  - by repeat split.
  - apply list_elem_of_lookup_2 with 0. reflexivity.
  - reflexivity.
Defined.

Lemma getValue_never_returns_sample :
  Cloud (PyArray Sample.lon) (PyArray Sample.lat) (PyArray Sample.data) = Ok Sample.cloud ∧
  getValue Sample.distance 10%Z 1%Z "nearest"
    (run Sample.distance
       [CallTrim [1; 7; 0; 100]%Z; CallSetData (PyArray (array1 [8; 9]%Z));
        CallInterpolateToGrid () "linear"; CallGetBounds]
       Sample.cloud) =
  (run Sample.distance
     [CallTrim [1; 7; 0; 100]%Z; CallSetData (PyArray (array1 [8; 9]%Z));
      CallInterpolateToGrid () "linear"; CallGetBounds]
     Sample.cloud,
   Raise (AttributeError "_lons")).
Proof.
  split; [reflexivity|].
  apply (getValue_never_returns Sample.distance unit
           (PyArray Sample.lon) (PyArray Sample.lat) (PyArray Sample.data)).
  reflexivity.
Defined.

(** A [setData] that raises after a [trim]. *)
Lemma raising_call_sample :
  Cloud (PyArray Sample.lon) (PyArray Sample.lat) (PyArray Sample.data) = Ok Sample.cloud ∧
  raised Sample.distance (GeoDict := unit) (CallSetData (PyArray Sample.data))
    (run Sample.distance (GeoDict := unit) [CallTrim [1; 7; 0; 100]%Z] Sample.cloud) ≠ None ∧
  exec Sample.distance (GeoDict := unit) (CallSetData (PyArray Sample.data))
    (run Sample.distance (GeoDict := unit) [CallTrim [1; 7; 0; 100]%Z] Sample.cloud) =
  run Sample.distance (GeoDict := unit) [CallTrim [1; 7; 0; 100]%Z] Sample.cloud.
Proof.
  split; [reflexivity|]. split; [discriminate|].
  apply (raising_call_keeps_cloud Sample.distance unit
           (PyArray Sample.lon) (PyArray Sample.lat) (PyArray Sample.data));
    [reflexivity | discriminate].
Defined.

Lemma trim_getData_sample :
  is_cloud Sample.cloud Sample.lon Sample.lat Sample.data ∧
  ∃ d, getData (trim [1; 7; 0; 100]%Z Sample.cloud).1 =
         ((trim [1; 7; 0; 100]%Z Sample.cloud).1, Ok d) ∧
       shape d = [length (flat d)] ∧
       flat d = (filter (λ p, inside 1%Z 7%Z 0%Z 100%Z p)
                   (points Sample.lon Sample.lat Sample.data)).*2.
Proof.
  split; [by repeat split|].
  apply (trim_getData Sample.cloud Sample.lon Sample.lat Sample.data).
  by repeat split.
Defined.

(** With the coordinates under [_lons] and [_lats] the lookup at latitude
    [29], longitude [4] finds the third point. *)
Example sample_getValue_named :
  getValue Sample.distance 29%Z 4%Z "nearest" Sample.named =
    (Sample.named, Ok (inr 300%Z)).
Proof. vm_compute. reflexivity. Qed.

